(** * Analizador CIX: extraction, scoring and deletion

    A shallow embedding of [app.py]: the extraction and scoring routine
    [procesar_evaluacion_empresa] and the deletion routine
    [eliminar_evaluacion_de_db], with the Python and pandas values they
    touch.

    Conventions.
    - A Python [str] is a list of Unicode code points.
    - Python exceptions are values of [excepcion]; code that may raise
      lives in the error monad [resultado].
    - The numbers 0, 0.4, 0.8 and 1 and their sum and quotient are exact
      rationals ([Q]); rounding of the binary floating-point format is not
      modelled.
    - Streamlit notices ([st.info], [st.error], ...) are collected, in
      order, in a list of [aviso]. *)

From Stdlib Require Import List NArith ZArith QArith Bool String Ascii Lia.
Import ListNotations.

Set Implicit Arguments.

(* ------------------------------------------------------------------ *)
(** ** Python strings *)

Module PyStr.

Definition str := list N.

Fixpoint eqb (a b : str) : bool :=
  match a, b with
  | [], [] => true
  | x :: a', y :: b' => (x =? y)%N && eqb a' b'
  | _, _ => false
  end.

(** Source text is UTF-8: a literal is decoded into its code points
    (sequences of one to four bytes). *)
Fixpoint decode (pend : nat) (acc : N) (bs : list N) : str :=
  match bs with
  | [] => []
  | b :: t =>
      match pend with
      | O =>
          if (b <? 128)%N then b :: decode 0 0%N t
          else if (b <? 224)%N then decode 1 (b - 192)%N t
          else if (b <? 240)%N then decode 2 (b - 224)%N t
          else decode 3 (b - 240)%N t
      | S k =>
          let acc' := (acc * 64 + (b - 128))%N in
          match k with
          | O => acc' :: decode 0 0%N t
          | S _ => decode k acc' t
          end
      end
  end.

Definition u (s : string) : str :=
  decode 0 0%N (map N_of_ascii (list_ascii_of_string s)).

(** [str.lower()].  Only the ASCII capitals are mapped; every other code
    point is left as it is.  The program compares a lowered string only
    with ["x"], [".csv"] and [".xlsx"] and lowers its own ten indicator
    names (whose only capitals are ASCII); no other code point lowers to
    one of the code points of those texts, so the comparisons come out
    as in Python. *)
Definition lower_cp (c : N) : N :=
  if ((65 <=? c) && (c <=? 90))%N then (c + 32)%N else c.

Definition lower (s : str) : str := map lower_cp s.

(** The code points [str.strip()] removes ([str.isspace]). *)
Definition isspace (c : N) : bool :=
  (((9 <=? c) && (c <=? 13)) || ((28 <=? c) && (c <=? 32))
   || (c =? 133) || (c =? 160) || (c =? 5760)
   || ((8192 <=? c) && (c <=? 8202))
   || (c =? 8232) || (c =? 8233) || (c =? 8239) || (c =? 8287)
   || (c =? 12288))%N.

Fixpoint lstrip (s : str) : str :=
  match s with
  | [] => []
  | c :: t => if isspace c then lstrip t else s
  end.

Definition rstrip (s : str) : str := rev (lstrip (rev s)).

Definition strip (s : str) : str := rstrip (lstrip s).

Fixpoint startswith (s pre : str) : bool :=
  match pre, s with
  | [], _ => true
  | _ :: _, [] => false
  | p :: pre', c :: s' => (c =? p)%N && startswith s' pre'
  end.

Definition endswith (s suf : str) : bool := startswith (rev s) (rev suf).

(** [s.split(sep)] for a separator of one code point. *)
Fixpoint split (sep : N) (s : str) : list str :=
  match s with
  | [] => [[]]
  | c :: t =>
      if (c =? sep)%N then [] :: split sep t
      else match split sep t with
           | [] => [[c]]
           | w :: ws => (c :: w) :: ws
           end
  end.

(** [s.replace(old, new)] for a non-empty [old]: occurrences are
    replaced from left to right and do not overlap.  [skip] counts the
    code points of an occurrence still to be dropped. *)
Fixpoint replace_from (skip : nat) (old new : str) (s : str) : str :=
  match s with
  | [] => []
  | c :: t =>
      match skip with
      | S k => replace_from k old new t
      | O =>
          if startswith s old
          then new ++ replace_from (List.length old - 1) old new t
          else c :: replace_from 0 old new t
      end
  end.

Definition replace (s old new : str) : str := replace_from 0 old new s.

End PyStr.

Import PyStr.

(* ------------------------------------------------------------------ *)
(** ** Exceptions and the error monad *)

Inductive excepcion : Type :=
| IndexError                    (* positional access out of bounds *)
| KeyError (k : str)            (* missing dictionary key *)
| AttributeError                (* attribute of [None] *)
| OtraExcepcion (msg : str).    (* any other [Exception], by its text *)

Inductive resultado (A : Type) : Type :=
| Ok (a : A)
| Raise (e : excepcion).

Arguments Ok {A} a.
Arguments Raise {A} e.

Definition ret {A} (a : A) : resultado A := Ok a.

Definition bind {A B} (m : resultado A) (k : A -> resultado B) : resultado B :=
  match m with
  | Ok a => k a
  | Raise e => Raise e
  end.

Declare Scope py_scope.
Delimit Scope py_scope with py.
Notation "x <- m ;; k" := (bind m (fun x => k))
  (at level 61, m at next level, right associativity) : py_scope.
Local Open Scope py_scope.

(* ------------------------------------------------------------------ *)
(** ** Python dictionaries: insertion-ordered association lists *)

Module Dict.

Definition dict (V : Type) := list (str * V).

(** [d[k] = v]: overwrite in place, or append a new key at the end. *)
Fixpoint set {V} (d : dict V) (k : str) (v : V) : dict V :=
  match d with
  | [] => [(k, v)]
  | (k', v') :: t =>
      if eqb k' k then (k', v) :: t else (k', v') :: set t k v
  end.

Fixpoint get {V} (d : dict V) (k : str) : option V :=
  match d with
  | [] => None
  | (k', v') :: t => if eqb k' k then Some v' else get t k
  end.

(** [d[k]] as an expression: [KeyError] when the key is missing. *)
Definition item {V} (d : dict V) (k : str) : resultado V :=
  match get d k with
  | Some v => Ok v
  | None => Raise (KeyError k)
  end.

Definition keys {V} (d : dict V) : list str := map fst d.
Definition values {V} (d : dict V) : list V := map snd d.

End Dict.

(* ------------------------------------------------------------------ *)
(** ** The sheet: a pandas DataFrame read with [header=None] *)

(** A cell is blank ([NaN]), a string, or some other scalar (number,
    date, boolean), which the program only ever prints with [str()]: it is
    kept as that text. *)
Inductive celda : Type :=
| NaN
| Texto (s : str)
| Escalar (repr : str).

(** A frame is rectangular: [ncols] columns, and as many rows as [filas]
    has; a stored row is read through [nth], so a short one is blank to
    its right. *)
Record DataFrame : Type := {
  ncols : nat;
  filas : list (list celda)
}.

Definition nrows (df : DataFrame) : nat := List.length (filas df).

(** [df.shape] *)
Definition shape (df : DataFrame) : nat * nat := (nrows df, ncols df).

Definition celda_en (df : DataFrame) (r c : nat) : celda :=
  nth c (nth r (filas df) []) NaN.

(** [df.iloc[r, c]] *)
Definition iloc (df : DataFrame) (r c : nat) : resultado celda :=
  if (r <? nrows df) && (c <? ncols df) then Ok (celda_en df r c)
  else Raise IndexError.

(** [df.iloc[:, c]] *)
Definition iloc_col (df : DataFrame) (c : nat) : resultado (list celda) :=
  if c <? ncols df then Ok (map (fun fila => nth c fila NaN) (filas df))
  else Raise IndexError.

(** [pd.isna(v)] on a cell *)
Definition isna (v : celda) : bool :=
  match v with
  | NaN => true
  | _ => false
  end.

(** [str(v)] on a cell *)
Definition str_de (v : celda) : str :=
  match v with
  | NaN => u "nan"
  | Texto s => s
  | Escalar r => r
  end.

(** [v == nombre] for a string [nombre], element of a column comparison *)
Definition celda_igual (v : celda) (nombre : str) : bool :=
  match v with
  | Texto s => eqb s nombre
  | _ => false
  end.

(** Row labels of the rows selected by a boolean mask, counted from [i]. *)
Fixpoint indices_desde (i : nat) (mascara : list bool) : list nat :=
  match mascara with
  | [] => []
  | b :: t =>
      if b then i :: indices_desde (S i) t else indices_desde (S i) t
  end.

(* ------------------------------------------------------------------ *)
(** ** Global configuration *)

Definition COLUMNAS_CALIFICACION : Dict.dict Q :=
  [ (u "N", 0); (u "P", 4 # 10); (u "T", 8 # 10); (u "E", 1) ].

Definition INDICADORES_A_EVALUAR : list str :=
  [ u "Datos de actividad";
    u "Factores de emisión";
    u "Alcance 1";
    u "Alcance 2";
    u "Alcance 3";
    u "Categorías excluidas";
    u "Consolidación";
    u "Auditoría";
    u "Compromisos de reducción";
    u "Evaluación de incertidumbre" ].

Definition SUPABASE_BUCKET_NAME : str := u "evaluaciones-cix-files".

(* ------------------------------------------------------------------ *)
(** ** Notices shown to the user *)

Inductive mensaje : Type :=
| Procesando (file_name : str)
| FormatoNoSoportado (file_name : str)
| ErrorAlProcesar (file_name : str) (e : excepcion)
| ErrorEliminarArchivo (file_name : str) (msg : str)
| ArchivoEliminado (file_name : str)
| EvaluacionEliminada
| ErrorEliminarDB (msg : str)
| ExcepcionAlEliminar (e : excepcion).

Inductive aviso : Type :=
| st_info (m : mensaje)
| st_success (m : mensaje)
| st_warning (m : mensaje)
| st_error (m : mensaje).

(* ------------------------------------------------------------------ *)
(** ** [procesar_evaluacion_empresa] *)

(** A value stored in [db_data]: a cell of the sheet (or a default text),
    or a number. *)
Inductive valor : Type :=
| VCelda (c : celda)
| VNum (q : Q).

(** [l[0]] *)
Definition primero {A} (l : list A) : resultado A :=
  match l with
  | [] => Raise IndexError
  | a :: _ => Ok a
  end.

(** [df.iloc[r, c] if not pd.isna(df.iloc[r, c]) else defecto]: the test
    is evaluated first, then the chosen branch. *)
Definition celda_o_defecto (df : DataFrame) (r c : nat)
    (defecto : resultado celda) : resultado celda :=
  v <- iloc df r c ;;
  if negb (isna v) then iloc df r c else defecto.

(** [file_name.split('-')[0].replace(".xlsx", "").replace(".csv", "")] *)
Definition nombre_desde_archivo (file_name : str) : resultado celda :=
  prefijo <- primero (split 45 file_name) ;;
  ret (Texto (replace (replace prefijo (u ".xlsx") []) (u ".csv") [])).

(** [df[(df.iloc[:, 0] == nombre) | (df.iloc[:, 1] == nombre)].index] *)
Definition fila_indicador (df : DataFrame) (indicador_nombre : str)
    : resultado (list nat) :=
  col0 <- iloc_col df 0 ;;
  col1 <- iloc_col df 1 ;;
  ret (indices_desde 0
         (map (fun p => celda_igual (fst p) indicador_nombre
                        || celda_igual (snd p) indicador_nombre)
              (combine col0 col1))).

Definition calificacion_col_indices : list nat := [4; 5; 6; 7]%nat.

(** The loop over [zip(calificacion_col_indices,
    COLUMNAS_CALIFICACION.keys())]; falling off the end leaves
    [puntuacion_obtenida] at its initial 0, a mark breaks out. *)
Fixpoint calificar (df : DataFrame) (fila_idx : nat)
    (pares : list (nat * str)) : resultado Q :=
  match pares with
  | [] => ret 0
  | (col_idx, key_calificacion) :: resto =>
      if col_idx <? ncols df then
        v <- iloc df fila_idx col_idx ;;
        if eqb (lower (strip (str_de v))) (u "x")
        then Dict.item COLUMNAS_CALIFICACION key_calificacion
        else calificar df fila_idx resto
      else calificar df fila_idx resto
  end.

(** The loop over [INDICADORES_A_EVALUAR], filling
    [puntuaciones_indicadores]. *)
Fixpoint puntuar (df : DataFrame) (indicadores : list str)
    (puntuaciones_indicadores : Dict.dict Q) : resultado (Dict.dict Q) :=
  match indicadores with
  | [] => ret puntuaciones_indicadores
  | indicador_nombre :: resto =>
      filas_halladas <- fila_indicador df indicador_nombre ;;
      match filas_halladas with
      | fila_idx :: _ =>
          puntuacion_obtenida <-
            calificar df fila_idx
              (combine calificacion_col_indices
                       (Dict.keys COLUMNAS_CALIFICACION)) ;;
          puntuar df resto
            (Dict.set puntuaciones_indicadores indicador_nombre
                      puntuacion_obtenida)
      | [] =>
          puntuar df resto
            (Dict.set puntuaciones_indicadores indicador_nombre 0)
      end
  end.

(** [sum(l)]: starts from 0 and adds from the left. *)
Definition suma (l : list Q) : Q := fold_left Qplus l 0.

Definition cix_total_de (puntuaciones_indicadores : Dict.dict Q) : Q :=
  match puntuaciones_indicadores with
  | [] => 0
  | _ :: _ =>
      suma (Dict.values puntuaciones_indicadores)
      / inject_Z (Z.of_nat (List.length INDICADORES_A_EVALUAR))
  end.

(** [key.lower().replace(" ", "_").replace("-", "_")] *)
Definition snake_case (key : str) : str :=
  replace (replace (lower key) (u " ") (u "_")) (u "-") (u "_").

Definition db_data_de (nombre_organizacion periodo_informe
    enlace_documentacion : celda) (cix_total : Q)
    (puntuaciones_indicadores : Dict.dict Q) : Dict.dict valor :=
  fold_left
    (fun db kv => Dict.set db (snake_case (fst kv)) (VNum (snd kv)))
    puntuaciones_indicadores
    [ (u "organizacion_nombre", VCelda nombre_organizacion);
      (u "periodo_informe", VCelda periodo_informe);
      (u "enlace_original_documentacion", VCelda enlace_documentacion);
      (u "cix_total", VNum cix_total) ].

(** The part of the [try] block after the sheet has been read. *)
Definition extraer (df_raw : DataFrame) (file_name : str)
    : resultado (Dict.dict valor) :=
  nombre_organizacion <-
    celda_o_defecto df_raw 5 1 (nombre_desde_archivo file_name) ;;
  periodo_informe <-
    celda_o_defecto df_raw 6 1 (ret (Texto (u "Desconocido"))) ;;
  enlace_documentacion <-
    celda_o_defecto df_raw 7 1 (ret (Texto (u "N/A"))) ;;
  puntuaciones_indicadores <- puntuar df_raw INDICADORES_A_EVALUAR [] ;;
  ret (db_data_de nombre_organizacion periodo_informe enlace_documentacion
         (cix_total_de puntuaciones_indicadores) puntuaciones_indicadores).

Section Lectores.

(** [pd.read_csv(file_bytes_obj, header=None)] and
    [pd.read_excel(file_bytes_obj, header=None)]: library parsers, from
    the bytes of a fresh in-memory file to a frame or an exception. *)
Variables read_csv read_excel : list N -> resultado DataFrame.

(** The [try] block: notices emitted inside it and the value returned,
    or the exception that escapes to the handler. *)
Definition cuerpo_try (file_bytes : list N) (file_name : str)
    : resultado (list aviso * option (Dict.dict valor)) :=
  if endswith (lower file_name) (u ".csv") then
    df_raw <- read_csv file_bytes ;;
    db_data <- extraer df_raw file_name ;;
    ret ([], Some db_data)
  else if endswith (lower file_name) (u ".xlsx") then
    df_raw <- read_excel file_bytes ;;
    db_data <- extraer df_raw file_name ;;
    ret ([], Some db_data)
  else
    ret ([st_error (FormatoNoSoportado file_name)], None).

Definition procesar_evaluacion_empresa (file_bytes : list N)
    (file_name : str) : list aviso * option (Dict.dict valor) :=
  match cuerpo_try file_bytes file_name with
  | Ok (avisos, r) => (st_info (Procesando file_name) :: avisos, r)
  | Raise e =>
      ([st_info (Procesando file_name);
        st_error (ErrorAlProcesar file_name e)], None)
  end.

End Lectores.

(* ------------------------------------------------------------------ *)
(** ** [eliminar_evaluacion_de_db] *)

(** What a call of the hosted backend hands back: [data] (truthy when not
    empty) and [error] ([None], or an object with a [message]). *)
Record respuesta : Type := {
  data : list str;
  error : option str
}.

Section Backend.

(** The hosted backend is an opaque service: a state, and the two calls
    the routine makes.  Each call yields the next state and either what
    it returns or the exception it raises.
    - [storage.from_(bucket).remove([names])], which may return [None];
    - [table(t).delete().eq(col, v).execute()]. *)
Variable estado : Type.
Variable storage_remove :
  estado -> str -> list str -> estado * resultado (option respuesta).
Variable table_delete_eq :
  estado -> str -> str -> str -> estado * resultado respuesta.

(** Notice for the outcome of the storage call:
    [if res_storage and res_storage.error: ... else: ...]. *)
Definition aviso_storage (file_name_in_storage : str)
    (res_storage : option respuesta) : aviso :=
  match res_storage with
  | Some r =>
      match error r with
      | Some msg =>
          st_warning (ErrorEliminarArchivo file_name_in_storage msg)
      | None => st_success (ArchivoEliminado file_name_in_storage)
      end
  | None => st_success (ArchivoEliminado file_name_in_storage)
  end.

(** Notice for the outcome of the row deletion; [response.error.message]
    on a missing [error] raises inside the [try]. *)
Definition aviso_db (response : respuesta) : aviso :=
  match data response with
  | _ :: _ => st_success EvaluacionEliminada
  | [] =>
      match error response with
      | Some msg => st_error (ErrorEliminarDB msg)
      | None => st_error (ExcepcionAlEliminar AttributeError)
      end
  end.

Definition eliminar_evaluacion_de_db (eval_id file_name_in_storage : str)
    (s : estado) : estado * list aviso :=
  match storage_remove s SUPABASE_BUCKET_NAME [file_name_in_storage] with
  | (s1, Raise e) => (s1, [st_error (ExcepcionAlEliminar e)])
  | (s1, Ok res_storage) =>
      let a1 := aviso_storage file_name_in_storage res_storage in
      match table_delete_eq s1 (u "evaluaciones") (u "id") eval_id with
      | (s2, Raise e) => (s2, [a1; st_error (ExcepcionAlEliminar e)])
      | (s2, Ok response) => (s2, [a1; aviso_db response])
      end
  end.

End Backend.

(** An in-memory backend on which the routine can be run: the files of
    the bucket, the identifiers of the stored rows, and whether the
    storage service answers at all. *)
Record nube : Type := {
  archivos : list str;
  tabla : list str;
  storage_en_linea : bool
}.

Definition quitar (x : str) (l : list str) : list str :=
  filter (fun y => negb (eqb y x)) l.

Definition contiene (x : str) (l : list str) : bool :=
  existsb (fun y => eqb y x) l.

Definition nube_remove (s : nube) (bucket : str) (names : list str)
    : nube * resultado (option respuesta) :=
  if storage_en_linea s then
    match names with
    | [name] =>
        if contiene name (archivos s)
        then ({| archivos := quitar name (archivos s);
                 tabla := tabla s;
                 storage_en_linea := true |},
              Ok (Some {| data := [name]; error := None |}))
        else (s, Ok (Some {| data := [];
                             error := Some (u "Object not found") |}))
    | _ => (s, Ok None)
    end
  else (s, Raise (OtraExcepcion (u "storage unreachable"))).

Definition nube_delete (s : nube) (t col v : str)
    : nube * resultado respuesta :=
  if contiene v (tabla s)
  then ({| archivos := archivos s;
           tabla := quitar v (tabla s);
           storage_en_linea := storage_en_linea s |},
        Ok {| data := [v]; error := None |})
  else (s, Ok {| data := []; error := Some (u "no rows") |}).

(* ------------------------------------------------------------------ *)
(** ** What the routine computes, as plain functions of the sheet *)

(** A rating mark: [str(v).strip().lower() == 'x']. *)
Definition es_x (v : celda) : bool :=
  eqb (lower (strip (str_de v))) (u "x").

(** A mark at an existing column [c] of row [r]. *)
Definition marca_en (df : DataFrame) (r c : nat) : bool :=
  (c <? ncols df) && es_x (celda_en df r c).

(** The rows whose column 0 or column 1 holds the name, in row order. *)
Definition coincide (fila : list celda) (nombre : str) : bool :=
  celda_igual (nth 0 fila NaN) nombre || celda_igual (nth 1 fila NaN) nombre.

Definition coincidencias (df : DataFrame) (nombre : str) : list nat :=
  indices_desde 0 (map (fun fila => coincide fila nombre) (filas df)).

(** The score of row [r]: the weight of the first marked rating column. *)
Definition puntuacion_fila (df : DataFrame) (r : nat) : Q :=
  if marca_en df r 4 then 0
  else if marca_en df r 5 then 4 # 10
  else if marca_en df r 6 then 8 # 10
  else if marca_en df r 7 then 1
  else 0.

Definition puntuacion (df : DataFrame) (nombre : str) : Q :=
  match coincidencias df nombre with
  | [] => 0
  | fila_idx :: _ => puntuacion_fila df fila_idx
  end.

Definition metadato (df : DataFrame) (r : nat) (defecto : celda) : celda :=
  if isna (celda_en df r 1) then defecto else celda_en df r 1.

Definition prefijo_archivo (file_name : str) : str :=
  replace (replace (hd [] (split 45 file_name)) (u ".xlsx") []) (u ".csv") [].

Definition puntuaciones_de (df : DataFrame) : Dict.dict Q :=
  map (fun n => (n, puntuacion df n)) INDICADORES_A_EVALUAR.

Definition registro (df : DataFrame) (file_name : str) : Dict.dict valor :=
  db_data_de
    (metadato df 5 (Texto (prefijo_archivo file_name)))
    (metadato df 6 (Texto (u "Desconocido")))
    (metadato df 7 (Texto (u "N/A")))
    (cix_total_de (puntuaciones_de df))
    (puntuaciones_de df).

(** The numeric entry of a record under a key. *)
Definition numero (r : Dict.dict valor) (k : str) : option Q :=
  match Dict.get r k with
  | Some (VNum q) => Some q
  | _ => None
  end.

Definition claves_indicadores : list str :=
  map snake_case INDICADORES_A_EVALUAR.

Definition claves_metadatos : list str :=
  [ u "organizacion_nombre"; u "periodo_informe";
    u "enlace_original_documentacion"; u "cix_total" ].

(** Which parser a file name is handed to, and what it returns; [None]
    when the name is handed to neither. *)
Definition lectura (read_csv read_excel : list N -> resultado DataFrame)
    (file_bytes : list N) (file_name : str) : option (resultado DataFrame) :=
  if endswith (lower file_name) (u ".csv") then Some (read_csv file_bytes)
  else if endswith (lower file_name) (u ".xlsx")
       then Some (read_excel file_bytes)
       else None.

(** [file_name] ends, up to the case of its letters, in [ext]. *)
Definition termina_en (file_name ext : str) : Prop :=
  exists pre suf, file_name = pre ++ suf /\ lower suf = ext.

(** The weights of the four rating columns, left to right. *)
Definition pesos : list Q := Dict.values COLUMNAS_CALIFICACION.

(* ------------------------------------------------------------------ *)
(** ** Sample inputs *)

(** Parsers that ignore the bytes: one always yields the given frame, one
    always raises. *)
Definition lector_fijo (df : DataFrame) : list N -> resultado DataFrame :=
  fun _ => Ok df.

Definition lector_roto : list N -> resultado DataFrame :=
  fun _ => Raise (OtraExcepcion (u "No columns to parse from file")).

(** A sheet in the shape of the template: blank organisation, period and
    link; "Alcance 1" twice (rows 8 and 9) with different marks;
    "Auditoría" with no mark; the other indicators absent. *)
Definition hoja_ejemplo : DataFrame := {|
  ncols := 8;
  filas :=
    [ [Texto (u "Informe de evaluación")];
      []; []; []; [];
      [Texto (u "Organización"); NaN];
      [Texto (u "Periodo"); NaN];
      [Texto (u "Enlace"); NaN];
      [Texto (u "Alcance 1"); NaN; NaN; NaN; NaN; NaN; Texto (u " X "); NaN];
      [NaN; Texto (u "Alcance 1"); NaN; NaN; NaN; NaN; NaN; Texto (u "x")];
      [Texto (u "Auditoría"); NaN; NaN; NaN; NaN; NaN; NaN; NaN] ]
|}.

(** The same template filled in, six columns wide: the last two rating
    columns do not exist. *)
Definition hoja_estrecha : DataFrame := {|
  ncols := 6;
  filas :=
    [ []; []; []; []; [];
      [Texto (u "Organización"); Texto (u "Acme S.A.")];
      [Texto (u "Periodo"); Escalar (u "2024")];
      [Texto (u "Enlace"); Texto (u "https://acme.example/huella")];
      [Texto (u "Alcance 2"); NaN; NaN; NaN; NaN; Texto (u "x")];
      [Texto (u "Consolidación"); NaN; NaN; NaN; NaN; NaN] ]
|}.

(** A sheet of three rows: the metadata rows 5 to 7 do not exist. *)
Definition hoja_corta : DataFrame := {|
  ncols := 8;
  filas :=
    [ [Texto (u "Alcance 1"); NaN; NaN; NaN; NaN; Texto (u "x")];
      []; [] ]
|}.

Definition archivo_ejemplo : str := u "AcmeCorp-2024.xlsx".

(** A backend holding one file and one row, with the storage service up
    or down. *)
Definition nube_ejemplo (en_linea : bool) : nube := {|
  archivos := [u "AcmeCorp-2024.xlsx"];
  tabla := [u "7f3c"];
  storage_en_linea := en_linea
|}.

(* ------------------------------------------------------------------ *)
(** ** The cache around the routine *)

(** [@st.cache_data] on [procesar_evaluacion_empresa]: a call whose
    arguments were seen before is answered from the cache, its notices
    shown again, without running the body; any other call runs the body
    and stores what it gave.  The caller always passes a new in-memory
    file over the uploaded bytes, so the first argument is identified
    with those bytes.  What the cache hands out is a copy: adding the
    address to a returned record later does not touch the stored one. *)
Definition salida : Type := (list aviso * option (Dict.dict valor))%type.

Definition cache : Type := list ((list N * str) * salida).

Fixpoint buscar_en_cache (c : cache) (file_bytes : list N) (file_name : str)
    : option salida :=
  match c with
  | [] => None
  | ((b, n), v) :: t =>
      if eqb b file_bytes && eqb n file_name then Some v
      else buscar_en_cache t file_bytes file_name
  end.

(** What a session does to the cache: a call of the routine, or the
    [st.cache_data.clear()] of the listing branch. *)
Inductive operacion : Type :=
| Llamar (file_bytes : list N) (file_name : str)
| Limpiar.

Section Cache.

Variables read_csv read_excel : list N -> resultado DataFrame.

Definition procesar_con_cache (c : cache) (file_bytes : list N)
    (file_name : str) : cache * salida :=
  match buscar_en_cache c file_bytes file_name with
  | Some v => (c, v)
  | None =>
      let v :=
        procesar_evaluacion_empresa read_csv read_excel file_bytes file_name
      in (((file_bytes, file_name), v) :: c, v)
  end.

Fixpoint ejecutar (c : cache) (ops : list operacion) : cache :=
  match ops with
  | [] => c
  | Llamar file_bytes file_name :: resto =>
      ejecutar (fst (procesar_con_cache c file_bytes file_name)) resto
  | Limpiar :: resto => ejecutar [] resto
  end.

End Cache.


(* ------------------------------------------------------------------ *)
(** ** The other routines of the persistence layer *)

(** Notices of the routines below and of the two branches of the main
    script. *)
Inductive mensaje_gw : Type :=
| NoSeDetectoNombre
| ArchivoSubido (file_name : str)
| ErrorAlSubir (msg : str)
| ExcepcionAlSubir (e : excepcion)
| EvaluacionGuardada (organizacion : valor)
| ErrorAlGuardar (msg : str)
| ExcepcionAlGuardar (e : excepcion)
| NoHayEvaluaciones (msg : str)
| ExcepcionAlObtener (e : excepcion)
| ArchivoProcesado (file_name : str)
| OperacionCompletada
| NoSePudoSubir
| NoSePudoProcesar.

Inductive aviso_gw : Type :=
| de_extraccion (a : aviso)
| gw_success (m : mensaje_gw)
| gw_warning (m : mensaje_gw)
| gw_error (m : mensaje_gw).

(** The uploaded file, as far as the program reads it. *)
Record UploadedFile : Type := {
  name : option str;
  getvalue : list N;
  type : str
}.

(** What a [select] hands back: the rows, and [error]. *)
Record respuesta_filas : Type := {
  data_filas : list (Dict.dict valor);
  error_filas : option str
}.

(** [s.split(sep)] for a separator of any positive length: [skip] counts
    the code points of a found separator still to be passed over, [pieza]
    holds the current piece, reversed. *)
Fixpoint split_from (skip : nat) (sep : str) (pieza : str) (s : str)
    : list str :=
  match s with
  | [] => [rev pieza]
  | c :: t =>
      match skip with
      | S k => split_from k sep pieza t
      | O =>
          if startswith s sep
          then rev pieza :: split_from (List.length sep - 1) sep [] t
          else split_from 0 sep (c :: pieza) t
      end
  end.

Definition split_str (s sep : str) : list str := split_from 0 sep [] s.

(** [l[i]] *)
Definition elemento {A} (l : list A) (i : nat) : resultado A :=
  match nth_error l i with
  | Some a => Ok a
  | None => Raise IndexError
  end.

(** [l[-1]] *)
Definition ultimo {A} (l : list A) : resultado A :=
  match rev l with
  | [] => Raise IndexError
  | a :: _ => Ok a
  end.

(** [s[:-1]] *)
Definition sin_ultimo (s : str) : str := removelast s.

Definition SELECCIONA : str := u "--- Selecciona una evaluación ---".

(** The columns [visualizar_resultados_streamlit] selects for its table. *)
Definition columnas_a_mostrar : list str :=
  [ u "organizacion_nombre"; u "periodo_informe"; u "cix_total";
    u "datos_actividad"; u "factores_emision"; u "alcance_1"; u "alcance_2";
    u "alcance_3"; u "categorias_excluidas"; u "consolidacion"; u "auditoria";
    u "compromisos_de_reduccion"; u "evaluacion_de_incertidumbre";
    u "fecha_evaluacion"; u "url_archivo_supabase" ].

(** [k in r] *)
Definition tiene_clave (r : Dict.dict valor) (k : str) : bool :=
  match Dict.get r k with
  | Some _ => true
  | None => false
  end.

(** A row of the listing, restricted to the columns the deletion branch
    reads. *)
Record fila_listado : Type := {
  id : celda;
  organizacion_nombre : celda;
  periodo_informe : celda;
  url_archivo_supabase : celda
}.

(** [f"{row['organizacion_nombre']} - {row['periodo_informe']} (ID: {row['id']})"] *)
Definition opcion_de (row : fila_listado) : str :=
  str_de (organizacion_nombre row) ++ u " - "
  ++ str_de (periodo_informe row) ++ u " (ID: " ++ str_de (id row) ++ u ")".

(** [opciones_eliminar], with the empty choice inserted at its head. *)
Definition opciones_eliminar (df_evaluaciones : list fila_listado)
    : list str :=
  SELECCIONA :: map opcion_de df_evaluaciones.

(** [evaluacion_a_eliminar_str.split('(ID: ')[1][:-1]] *)
Definition eval_id_de (evaluacion_a_eliminar_str : str) : resultado str :=
  pieza <- elemento (split_str evaluacion_a_eliminar_str (u "(ID: ")) 1 ;;
  ret (sin_ultimo pieza).

(** [df[df['id'] == eval_id]['url_archivo_supabase'].iloc[0]] *)
Definition url_de (df_evaluaciones : list fila_listado) (eval_id : str)
    : resultado celda :=
  fila <- primero
            (filter (fun row => celda_igual (id row) eval_id)
                    df_evaluaciones) ;;
  ret (url_archivo_supabase fila).

(** [file_url_to_delete.split('/')[-1]]; only a string has [split]. *)
Definition file_name_de (file_url_to_delete : celda) : resultado str :=
  match file_url_to_delete with
  | Texto url => ultimo (split 47 url)
  | _ => Raise AttributeError
  end.

(** What the deletion branch computes from the selected option before it
    shows the confirmation button: the identifier and the stored file
    name it will pass to [eliminar_evaluacion_de_db]; [None] when the
    empty choice is selected. *)
Definition preparar_eliminacion (df_evaluaciones : list fila_listado)
    (evaluacion_a_eliminar_str : str) : resultado (option (str * str)) :=
  if eqb evaluacion_a_eliminar_str SELECCIONA then ret None
  else
    eval_id_to_delete <- eval_id_de evaluacion_a_eliminar_str ;;
    file_url_to_delete <- url_de df_evaluaciones eval_id_to_delete ;;
    file_name_in_storage <- file_name_de file_url_to_delete ;;
    ret (Some (eval_id_to_delete, file_name_in_storage)).

Section Pasarela.

(** The backend address of the configuration, the backend state, and the
    calls of the routines below, as in [Backend]:
    - [storage.from_(bucket).upload(name, bytes, {"ContentType": type})];
    - [table(t).insert(row).execute()];
    - [table(t).select('*').order(col, desc=True).execute()]. *)
Variable SUPABASE_URL : str.
Variable estado : Type.
Variable storage_upload :
  estado -> str -> str -> list N -> str ->
  estado * resultado (option respuesta).
Variable table_insert :
  estado -> str -> Dict.dict valor -> estado * resultado respuesta.
Variable table_select :
  estado -> str -> str -> estado * resultado respuesta_filas.

(** [f"{SUPABASE_URL}/storage/v1/object/public/{SUPABASE_BUCKET_NAME}/{file_name}"] *)
Definition public_url_de (file_name : str) : str :=
  SUPABASE_URL ++ u "/storage/v1/object/public/" ++ SUPABASE_BUCKET_NAME
  ++ u "/" ++ file_name.

Definition subir_archivo_a_supabase (uploaded_file : UploadedFile)
    (s : estado) : estado * list aviso_gw * option str :=
  match name uploaded_file with
  | None => (s, [gw_error NoSeDetectoNombre], None)
  | Some file_name =>
      match storage_upload s SUPABASE_BUCKET_NAME file_name
              (getvalue uploaded_file) (type uploaded_file) with
      | (s1, Raise e) => (s1, [gw_error (ExcepcionAlSubir e)], None)
      | (s1, Ok None) =>
          (s1, [gw_error (ExcepcionAlSubir AttributeError)], None)
      | (s1, Ok (Some res)) =>
          match data res with
          | _ :: _ =>
              (s1, [gw_success (ArchivoSubido file_name)],
               Some (public_url_de file_name))
          | [] =>
              match error res with
              | Some msg => (s1, [gw_error (ErrorAlSubir msg)], None)
              | None => (s1, [], None)
              end
          end
      end
  end.

(** The routine returns nothing; the dictionary it was given is changed
    in place, so the changed dictionary is part of the outcome. *)
Definition guardar_evaluacion_en_db (eval_data : Dict.dict valor)
    (file_url_supabase : str) (s : estado)
    : estado * list aviso_gw * Dict.dict valor :=
  let eval_data' :=
    Dict.set eval_data (u "url_archivo_supabase")
             (VCelda (Texto file_url_supabase)) in
  match table_insert s (u "evaluaciones") eval_data' with
  | (s1, Raise e) => (s1, [gw_error (ExcepcionAlGuardar e)], eval_data')
  | (s1, Ok response) =>
      match data response with
      | _ :: _ =>
          match Dict.item eval_data' (u "organizacion_nombre") with
          | Ok org => (s1, [gw_success (EvaluacionGuardada org)], eval_data')
          | Raise e => (s1, [gw_error (ExcepcionAlGuardar e)], eval_data')
          end
      | [] =>
          match error response with
          | Some msg => (s1, [gw_error (ErrorAlGuardar msg)], eval_data')
          | None =>
              (s1, [gw_error (ExcepcionAlGuardar AttributeError)],
               eval_data')
          end
      end
  end.

(** The frame returned is the list of its rows; the ten-minute cache
    around the routine is not modelled. *)
Definition obtener_evaluaciones_de_db (s : estado)
    : estado * list aviso_gw * list (Dict.dict valor) :=
  match table_select s (u "evaluaciones") (u "fecha_evaluacion") with
  | (s1, Raise e) => (s1, [gw_error (ExcepcionAlObtener e)], [])
  | (s1, Ok response) =>
      match data_filas response with
      | _ :: _ => (s1, [], data_filas response)
      | [] =>
          match error_filas response with
          | Some msg => (s1, [gw_warning (NoHayEvaluaciones msg)], [])
          | None =>
              (s1, [gw_error (ExcepcionAlObtener AttributeError)], [])
          end
      end
  end.

(** [if d:] on a dictionary, [if s:] on a string *)
Definition no_vacio {A} (l : list A) : bool :=
  match l with
  | [] => false
  | _ :: _ => true
  end.

(** The branch "Subir Nueva Evaluación" of the main script for an uploaded
    file: the notices, the final backend state and the [refresh_data]
    flag it sets.  The page elements that only display the record are
    left out.  A file without a name makes [file_name.lower()] fail
    inside the [try] of the extraction. *)
Definition subir_nueva_evaluacion
    (read_csv read_excel : list N -> resultado DataFrame)
    (uploaded_file : UploadedFile) (s : estado)
    : estado * list aviso_gw * bool :=
  match name uploaded_file with
  | None =>
      (s, [de_extraccion (st_info (Procesando (u "None")));
           de_extraccion
             (st_error (ErrorAlProcesar (u "None") AttributeError));
           gw_error NoSePudoProcesar], false)
  | Some file_name =>
      let '(avisos, eval_data_processed) :=
        procesar_evaluacion_empresa read_csv read_excel
          (getvalue uploaded_file) file_name in
      let avisos := map de_extraccion avisos in
      match eval_data_processed with
      | Some eval_data =>
          if no_vacio eval_data then
            let '(s1, avisos1, file_url_supabase) :=
              subir_archivo_a_supabase uploaded_file s in
            let antes :=
              avisos ++ [gw_success (ArchivoProcesado file_name)]
              ++ avisos1 in
            match file_url_supabase with
            | Some url =>
                if no_vacio url then
                  let '(s2, avisos2, _) :=
                    guardar_evaluacion_en_db eval_data url s1 in
                  (s2,
                   antes ++ avisos2 ++ [gw_success OperacionCompletada],
                   true)
                else (s1, antes ++ [gw_error NoSePudoSubir], false)
            | None => (s1, antes ++ [gw_error NoSePudoSubir], false)
            end
          else (s, avisos ++ [gw_error NoSePudoProcesar], false)
      | None => (s, avisos ++ [gw_error NoSePudoProcesar], false)
      end
  end.

End Pasarela.

(** Operations of the in-memory backend for the calls above: an upload
    stores the name, or raises when the service is down; one insert adds
    a row and answers with it, the other answers with an error and adds
    nothing, as a table that rejects the row; one select finds no rows,
    the other finds one. *)
Definition nube_upload (s : nube) (bucket file_name : str)
    (bytes : list N) (content_type : str)
    : nube * resultado (option respuesta) :=
  if storage_en_linea s
  then ({| archivos := file_name :: quitar file_name (archivos s);
           tabla := tabla s;
           storage_en_linea := true |},
        Ok (Some {| data := [file_name]; error := None |}))
  else (s, Raise (OtraExcepcion (u "storage unreachable"))).

Definition nube_insert_ok (s : nube) (t : str) (row : Dict.dict valor)
    : nube * resultado respuesta :=
  ({| archivos := archivos s;
      tabla := u "nuevo" :: tabla s;
      storage_en_linea := storage_en_linea s |},
   Ok {| data := [u "nuevo"]; error := None |}).

Definition nube_insert_rechaza (s : nube) (t : str) (row : Dict.dict valor)
    : nube * resultado respuesta :=
  (s, Ok {| data := []; error := Some (u "column not found") |}).

Definition nube_select (s : nube) (t col : str)
    : nube * resultado respuesta_filas :=
  (s, Ok {| data_filas := []; error_filas := None |}).


Definition archivo_subido_ejemplo : UploadedFile := {|
  name := Some archivo_ejemplo;
  getvalue := [80; 75]%N;
  type := u "application/vnd.ms-excel"
|}.

Definition listado_ejemplo : list fila_listado :=
  [ {| id := Texto (u "7f3c");
       organizacion_nombre := Texto (u "AcmeCorp");
       periodo_informe := Texto (u "Desconocido");
       url_archivo_supabase :=
         Texto (u "https://x.supabase.co/storage/v1/object/public/evaluaciones-cix-files/AcmeCorp-2024.xlsx") |};
    {| id := Texto (u "91ab");
       organizacion_nombre := Texto (u "Beta (ID: 7)");
       periodo_informe := Escalar (u "2023");
       url_archivo_supabase :=
         Texto (u "https://x.supabase.co/storage/v1/object/public/evaluaciones-cix-files/informes/beta.csv") |} ].

(* ------------------------------------------------------------------ *)
(** * Properties *)

Lemma eqb_eq (a b : str) : eqb a b = true <-> a = b.
Proof.
  revert b. induction a as [|x a IH]; intros [|y b]; simpl;
    try (split; [discriminate | discriminate]); [tauto|].
  rewrite andb_true_iff, N.eqb_eq, IH. split.
  - intros [-> ->]. reflexivity.
  - intros H. injection H as -> ->. tauto.
Qed.

Lemma eqb_refl (a : str) : eqb a a = true.
Proof. now apply eqb_eq. Qed.

Lemma eqb_neq (a b : str) : eqb a b = false <-> a <> b.
Proof.
  rewrite <- eqb_eq. destruct (eqb a b); split; congruence.
Qed.

(** *** Positional access *)

Lemma iloc_dentro (df : DataFrame) (r c : nat) :
  (r < nrows df)%nat -> (c < ncols df)%nat ->
  iloc df r c = Ok (celda_en df r c).
Proof.
  intros Hr Hc. unfold iloc.
  apply Nat.ltb_lt in Hr. apply Nat.ltb_lt in Hc.
  now rewrite Hr, Hc.
Qed.

Lemma iloc_fuera (df : DataFrame) (r c : nat) :
  (nrows df <= r)%nat \/ (ncols df <= c)%nat ->
  iloc df r c = Raise IndexError.
Proof.
  intros H. unfold iloc.
  destruct (Nat.ltb_spec r (nrows df)), (Nat.ltb_spec c (ncols df));
    simpl; trivial; lia.
Qed.

Lemma celda_o_defecto_dentro (df : DataFrame) (r c : nat) d :
  (r < nrows df)%nat -> (c < ncols df)%nat ->
  celda_o_defecto df r c d
  = if isna (celda_en df r c) then d else Ok (celda_en df r c).
Proof.
  intros Hr Hc. unfold celda_o_defecto.
  rewrite (iloc_dentro df Hr Hc). simpl.
  now destruct (isna (celda_en df r c)).
Qed.

Lemma celda_o_defecto_fuera (df : DataFrame) (r c : nat) d :
  (nrows df <= r)%nat \/ (ncols df <= c)%nat ->
  celda_o_defecto df r c d = Raise IndexError.
Proof.
  intros H. unfold celda_o_defecto. now rewrite (iloc_fuera df H).
Qed.

(** *** The fallback organisation name *)

Lemma split_no_vacio (sep : N) (s : str) : split sep s <> [].
Proof.
  destruct s as [|c t]; simpl; [discriminate|].
  destruct (c =? sep)%N; [discriminate|].
  destruct (split sep t); discriminate.
Qed.

Lemma nombre_desde_archivo_ok (file_name : str) :
  nombre_desde_archivo file_name = Ok (Texto (prefijo_archivo file_name)).
Proof.
  unfold nombre_desde_archivo, prefijo_archivo.
  pose proof (split_no_vacio 45 file_name) as H.
  destruct (split 45 file_name); [congruence | reflexivity].
Qed.

(** *** Locating an indicator *)

Lemma combine_map_mismo {A B C} (f : A -> B) (g : A -> C) (l : list A) :
  combine (map f l) (map g l) = map (fun a => (f a, g a)) l.
Proof. induction l; simpl; congruence. Qed.

Lemma fila_indicador_ok (df : DataFrame) (nombre : str) :
  (2 <= ncols df)%nat ->
  fila_indicador df nombre = Ok (coincidencias df nombre).
Proof.
  intros H. unfold fila_indicador, iloc_col, coincidencias.
  destruct (Nat.ltb_spec 0 (ncols df)); [|lia].
  destruct (Nat.ltb_spec 1 (ncols df)); [|lia].
  simpl. unfold ret. f_equal. f_equal.
  rewrite combine_map_mismo, map_map. reflexivity.
Qed.

Lemma fila_indicador_fuera (df : DataFrame) (nombre : str) :
  (ncols df < 2)%nat -> fila_indicador df nombre = Raise IndexError.
Proof.
  intros H. unfold fila_indicador, iloc_col.
  destruct (Nat.ltb_spec 0 (ncols df)); simpl; trivial.
  destruct (Nat.ltb_spec 1 (ncols df)); simpl; trivial. lia.
Qed.

(** The first label [indices_desde] yields is the least position of the
    mask holding [true]; it yields none when the mask holds no [true]. *)
Lemma indices_desde_primero (m : list bool) : forall k,
  match indices_desde k m with
  | [] => forall j, nth j m false = false
  | i :: _ =>
      (k <= i)%nat /\ nth (i - k) m false = true
      /\ forall j, (j < i - k)%nat -> nth j m false = false
  end.
Proof.
  induction m as [|b t IH]; intros k; simpl.
  - now intros [|j].
  - destruct b.
    + rewrite Nat.sub_diag. repeat split; [lia | intros j Hj; lia].
    + specialize (IH (S k)).
      destruct (indices_desde (S k) t) as [|i rest].
      * intros [|j]; [reflexivity | apply IH].
      * destruct IH as (Hle & Hi & Hmin).
        replace (i - k)%nat with (S (i - S k)) by lia.
        repeat split; [lia | exact Hi |].
        intros [|j] Hj; [reflexivity | apply Hmin; lia].
Qed.

Lemma nth_mascara (df : DataFrame) (nombre : str) (j : nat) :
  nth j (map (fun fila => coincide fila nombre) (filas df)) false
  = coincide (nth j (filas df) []) nombre.
Proof.
  change false with ((fun fila => coincide fila nombre) []) at 1.
  apply map_nth.
Qed.

Lemma coincidencias_primero (df : DataFrame) (nombre : str) :
  match coincidencias df nombre with
  | [] => forall j, coincide (nth j (filas df) []) nombre = false
  | i :: _ =>
      (i < nrows df)%nat
      /\ coincide (nth i (filas df) []) nombre = true
      /\ forall j, (j < i)%nat -> coincide (nth j (filas df) []) nombre = false
  end.
Proof.
  unfold coincidencias.
  pose proof (indices_desde_primero
                (map (fun fila => coincide fila nombre) (filas df)) 0) as H.
  destruct (indices_desde 0 _) as [|i rest].
  - intros j. rewrite <- nth_mascara. apply H.
  - destruct H as (_ & Hi & Hmin). rewrite Nat.sub_0_r in Hi, Hmin.
    rewrite nth_mascara in Hi.
    repeat split; trivial.
    + destruct (Nat.lt_ge_cases i (nrows df)) as [|Hge]; trivial.
      unfold nrows in Hge. rewrite (nth_overflow _ _ Hge) in Hi.
      discriminate.
    + intros j Hj. rewrite <- nth_mascara. now apply Hmin.
Qed.

(** A name found first in row [i] is looked up in row [i]. *)
Lemma coincidencias_menor (df : DataFrame) (nombre : str) (i : nat) :
  coincide (nth i (filas df) []) nombre = true ->
  (forall j, (j < i)%nat -> coincide (nth j (filas df) []) nombre = false) ->
  exists resto, coincidencias df nombre = i :: resto.
Proof.
  intros Hi Hmin.
  pose proof (coincidencias_primero df nombre) as H.
  destruct (coincidencias df nombre) as [|i' rest].
  - rewrite H in Hi. discriminate.
  - destruct H as (_ & Hi' & Hmin'). exists rest. f_equal.
    destruct (Nat.lt_trichotomy i' i) as [Hlt|[Heq|Hgt]]; trivial.
    + rewrite (Hmin _ Hlt) in Hi'. discriminate.
    + rewrite (Hmin' _ Hgt) in Hi. discriminate.
Qed.

(** *** Scoring a row *)

Lemma calificar_ok (df : DataFrame) (r : nat) :
  (r < nrows df)%nat ->
  calificar df r
    (combine calificacion_col_indices (Dict.keys COLUMNAS_CALIFICACION))
  = Ok (puntuacion_fila df r).
Proof.
  intros Hr. unfold puntuacion_fila, marca_en, es_x.
  change (combine calificacion_col_indices
            (Dict.keys COLUMNAS_CALIFICACION))
    with [(4%nat, u "N"); (5%nat, u "P"); (6%nat, u "T"); (7%nat, u "E")].
  cbn [calificar].
  repeat
    match goal with
    | |- context [Nat.ltb ?c (ncols df)] =>
        let Hc := fresh "Hc" in
        destruct (Nat.ltb_spec c (ncols df)) as [Hc|Hc];
        [ rewrite (iloc_dentro df Hr Hc); cbn [bind andb];
          destruct (eqb (lower (strip (str_de (celda_en df r c)))) (u "x"));
          [ reflexivity | ]
        | cbn [andb] ]
    end;
    reflexivity.
Qed.

(** *** The loop over the indicators *)

Lemma puntuar_ok (df : DataFrame) (indicadores : list str) :
  (2 <= ncols df)%nat ->
  forall acc,
    puntuar df indicadores acc
    = Ok (fold_left (fun d n => Dict.set d n (puntuacion df n))
                    indicadores acc).
Proof.
  intros Hc. induction indicadores as [|n resto IH]; intros acc.
  - reflexivity.
  - cbn [puntuar fold_left]. rewrite (fila_indicador_ok df n Hc).
    cbn [bind]. unfold puntuacion.
    pose proof (coincidencias_primero df n) as H.
    destruct (coincidencias df n) as [|i rest].
    + apply IH.
    + destruct H as (Hi & _). rewrite (calificar_ok df Hi). cbn [bind].
      apply IH.
Qed.

Lemma puntuar_fuera (df : DataFrame) (n : str) (resto : list str) acc :
  (ncols df < 2)%nat -> puntuar df (n :: resto) acc = Raise IndexError.
Proof.
  intros H. cbn [puntuar]. now rewrite (fila_indicador_fuera df n H).
Qed.

(** The ten names are distinct, so the dictionary gets one entry per
    name, in the order of the list. *)
Lemma puntuaciones_forma (f : str -> Q) :
  fold_left (fun d n => Dict.set d n (f n)) INDICADORES_A_EVALUAR []
  = map (fun n => (n, f n)) INDICADORES_A_EVALUAR.
Proof. vm_compute. reflexivity. Qed.

(** *** The whole extraction *)

Lemma extraer_ok (df : DataFrame) (file_name : str) :
  (8 <= nrows df)%nat -> (2 <= ncols df)%nat ->
  extraer df file_name = Ok (registro df file_name).
Proof.
  intros Hr Hc. unfold extraer, registro, metadato.
  rewrite !celda_o_defecto_dentro by lia.
  rewrite nombre_desde_archivo_ok.
  rewrite (puntuar_ok df INDICADORES_A_EVALUAR Hc).
  rewrite (puntuaciones_forma (puntuacion df)).
  fold (puntuaciones_de df).
  destruct (isna (celda_en df 5 1)), (isna (celda_en df 6 1)),
    (isna (celda_en df 7 1)); reflexivity.
Qed.

Lemma extraer_fuera (df : DataFrame) (file_name : str) :
  (nrows df < 8)%nat \/ (ncols df < 2)%nat ->
  extraer df file_name = Raise IndexError.
Proof.
  intros H. unfold extraer.
  destruct (Nat.lt_ge_cases (ncols df) 2) as [Hc|Hc].
  { rewrite celda_o_defecto_fuera by lia. reflexivity. }
  destruct H as [Hr|Hr]; [|lia].
  destruct (Nat.lt_ge_cases 5 (nrows df)) as [H5|H5].
  2:{ rewrite celda_o_defecto_fuera by lia. reflexivity. }
  rewrite (celda_o_defecto_dentro df _ H5) by lia.
  rewrite nombre_desde_archivo_ok.
  destruct (Nat.lt_ge_cases 6 (nrows df)) as [H6|H6].
  2:{ rewrite (celda_o_defecto_fuera df (r:=6)) by lia.
      destruct (isna (celda_en df 5 1)); reflexivity. }
  rewrite (celda_o_defecto_dentro df _ H6) by lia.
  rewrite (celda_o_defecto_fuera df (r:=7)) by lia.
  destruct (isna (celda_en df 5 1)), (isna (celda_en df 6 1)); reflexivity.
Qed.

(** *** The shape of a record *)

Lemma db_data_forma (org per enl : celda) (cix : Q) (f : str -> Q) :
  db_data_de org per enl cix
    (map (fun n => (n, f n)) INDICADORES_A_EVALUAR)
  = [ (u "organizacion_nombre", VCelda org);
      (u "periodo_informe", VCelda per);
      (u "enlace_original_documentacion", VCelda enl);
      (u "cix_total", VNum cix) ]
    ++ map (fun n => (snake_case n, VNum (f n))) INDICADORES_A_EVALUAR.
Proof. vm_compute. reflexivity. Qed.

Lemma registro_forma (df : DataFrame) (file_name : str) :
  registro df file_name
  = [ (u "organizacion_nombre",
       VCelda (metadato df 5 (Texto (prefijo_archivo file_name))));
      (u "periodo_informe",
       VCelda (metadato df 6 (Texto (u "Desconocido"))));
      (u "enlace_original_documentacion",
       VCelda (metadato df 7 (Texto (u "N/A"))));
      (u "cix_total", VNum (cix_total_de (puntuaciones_de df))) ]
    ++ map (fun n => (snake_case n, VNum (puntuacion df n)))
           INDICADORES_A_EVALUAR.
Proof. unfold registro, puntuaciones_de. apply db_data_forma. Qed.

Lemma registro_claves (df : DataFrame) (file_name : str) :
  Dict.keys (registro df file_name) = claves_metadatos ++ claves_indicadores.
Proof. rewrite registro_forma. reflexivity. Qed.

Lemma registro_indicador (df : DataFrame) (file_name n : str) :
  In n INDICADORES_A_EVALUAR ->
  numero (registro df file_name) (snake_case n) = Some (puntuacion df n).
Proof.
  intros Hn. rewrite registro_forma. unfold numero.
  generalize (puntuacion df) as f.
  generalize (cix_total_de (puntuaciones_de df)) as cix.
  generalize (metadato df 5 (Texto (prefijo_archivo file_name))) as org.
  generalize (metadato df 6 (Texto (u "Desconocido"))) as per.
  generalize (metadato df 7 (Texto (u "N/A"))) as enl.
  intros enl per org cix f.
  repeat (destruct Hn as [<-|Hn]; [vm_compute; reflexivity|]).
  destruct Hn.
Qed.

Lemma cix_total_de_forma (f : str -> Q) :
  cix_total_de (map (fun n => (n, f n)) INDICADORES_A_EVALUAR)
  = suma (map f INDICADORES_A_EVALUAR) / inject_Z 10.
Proof.
  unfold cix_total_de, Dict.values. rewrite map_map. cbn [snd].
  unfold INDICADORES_A_EVALUAR at 1. cbn [map]. reflexivity.
Qed.

Lemma registro_cix_total (df : DataFrame) (file_name : str) :
  numero (registro df file_name) (u "cix_total")
  = Some (suma (map (puntuacion df) INDICADORES_A_EVALUAR) / inject_Z 10).
Proof.
  rewrite registro_forma. unfold puntuaciones_de.
  rewrite (cix_total_de_forma (puntuacion df)).
  generalize (suma (map (puntuacion df) INDICADORES_A_EVALUAR) / inject_Z 10)
    as cix.
  generalize (puntuacion df) as f.
  generalize (metadato df 5 (Texto (prefijo_archivo file_name))) as org.
  generalize (metadato df 6 (Texto (u "Desconocido"))) as per.
  generalize (metadato df 7 (Texto (u "N/A"))) as enl.
  intros enl per org f cix. vm_compute. reflexivity.
Qed.

Lemma registro_completo (df : DataFrame) (file_name k : str) :
  In k (claves_metadatos ++ claves_indicadores) ->
  Dict.get (registro df file_name) k <> None.
Proof.
  intros Hk. rewrite registro_forma.
  generalize (puntuacion df) as f.
  generalize (cix_total_de (puntuaciones_de df)) as cix.
  generalize (metadato df 5 (Texto (prefijo_archivo file_name))) as org.
  generalize (metadato df 6 (Texto (u "Desconocido"))) as per.
  generalize (metadato df 7 (Texto (u "N/A"))) as enl.
  intros enl per org cix f.
  repeat (destruct Hk as [<-|Hk]; [vm_compute; discriminate|]).
  destruct Hk.
Qed.

(** *** The routine, case by case *)

Lemma procesar_casos rc rx (file_bytes : list N) (file_name : str) :
  procesar_evaluacion_empresa rc rx file_bytes file_name
  = match lectura rc rx file_bytes file_name with
    | None =>
        ([st_info (Procesando file_name);
          st_error (FormatoNoSoportado file_name)], None)
    | Some (Raise e) =>
        ([st_info (Procesando file_name);
          st_error (ErrorAlProcesar file_name e)], None)
    | Some (Ok df) =>
        if (8 <=? nrows df) && (2 <=? ncols df)
        then ([st_info (Procesando file_name)], Some (registro df file_name))
        else ([st_info (Procesando file_name);
               st_error (ErrorAlProcesar file_name IndexError)], None)
    end.
Proof.
  assert (Hext : forall df,
    bind (extraer df file_name)
         (fun db_data => ret (@nil aviso, Some db_data))
    = if (8 <=? nrows df) && (2 <=? ncols df)
      then Ok ([], Some (registro df file_name))
      else Raise IndexError).
  { intros df.
    destruct (Nat.leb_spec 8 (nrows df)), (Nat.leb_spec 2 (ncols df));
      cbn [andb].
    - now rewrite extraer_ok.
    - now rewrite extraer_fuera by lia.
    - now rewrite extraer_fuera by lia.
    - now rewrite extraer_fuera by lia. }
  unfold procesar_evaluacion_empresa, cuerpo_try, lectura.
  destruct (endswith (lower file_name) (u ".csv")).
  - destruct (rc file_bytes) as [df|e]; cbn [bind]; [|reflexivity].
    rewrite Hext. now destruct ((8 <=? nrows df) && (2 <=? ncols df)).
  - destruct (endswith (lower file_name) (u ".xlsx")); [|reflexivity].
    destruct (rx file_bytes) as [df|e]; cbn [bind]; [|reflexivity].
    rewrite Hext. now destruct ((8 <=? nrows df) && (2 <=? ncols df)).
Qed.

(** A record comes out only of a supported name, a frame that was read,
    and a frame that has the metadata cells. *)
Lemma procesar_Some rc rx (file_bytes : list N) (file_name : str) avisos r :
  procesar_evaluacion_empresa rc rx file_bytes file_name = (avisos, Some r) ->
  exists df,
    lectura rc rx file_bytes file_name = Some (Ok df)
    /\ (8 <= nrows df)%nat /\ (2 <= ncols df)%nat
    /\ r = registro df file_name
    /\ avisos = [st_info (Procesando file_name)].
Proof.
  rewrite procesar_casos.
  destruct (lectura rc rx file_bytes file_name) as [[df|e]|];
    try discriminate.
  destruct (Nat.leb_spec 8 (nrows df)), (Nat.leb_spec 2 (ncols df));
    cbn [andb]; try discriminate.
  intros Hp. injection Hp as <- <-. exists df. repeat split; trivial.
Qed.

Lemma procesar_leido rc rx (file_bytes : list N) (file_name : str) df :
  lectura rc rx file_bytes file_name = Some (Ok df) ->
  (8 <= nrows df)%nat -> (2 <= ncols df)%nat ->
  procesar_evaluacion_empresa rc rx file_bytes file_name
  = ([st_info (Procesando file_name)], Some (registro df file_name)).
Proof.
  intros Hl Hr Hc. rewrite procesar_casos, Hl.
  apply Nat.leb_le in Hr. apply Nat.leb_le in Hc. now rewrite Hr, Hc.
Qed.

(** *** File-name suffixes *)

Lemma startswith_spec (pre : str) : forall s,
  startswith s pre = true <-> exists resto, s = pre ++ resto.
Proof.
  induction pre as [|p pre IH]; intros s.
  - destruct s; simpl; split; trivial; intros _; eexists; reflexivity.
  - destruct s as [|c s]; simpl.
    + split; [discriminate | intros [? ?]; discriminate].
    + rewrite andb_true_iff, N.eqb_eq, IH. split.
      * intros [-> [resto ->]]. now exists resto.
      * intros [resto H]. injection H as -> ->. split; trivial.
        now exists resto.
Qed.

Lemma endswith_spec (s suf : str) :
  endswith s suf = true <-> exists pre, s = pre ++ suf.
Proof.
  unfold endswith. rewrite startswith_spec. split.
  - intros [resto H]. exists (rev resto).
    rewrite <- (rev_involutive s), H, rev_app_distr, rev_involutive.
    reflexivity.
  - intros [pre ->]. exists (rev pre). apply rev_app_distr.
Qed.

Lemma endswith_lower (file_name ext : str) :
  endswith (lower file_name) ext = true <-> termina_en file_name ext.
Proof.
  rewrite endswith_spec. unfold termina_en, lower. split.
  - intros [pre H]. apply map_eq_app in H.
    destruct H as (l1 & l2 & -> & _ & H2). now exists l1, l2.
  - intros (pre & suf & -> & <-). exists (map lower_cp pre).
    apply map_app.
Qed.

(* ------------------------------------------------------------------ *)
(** * The claims *)

(** ** C1 *)

(** C1. Whenever [procesar_evaluacion_empresa] yields a record, its
    [cix_total] is the sum of the ten indicator scores of that record
    divided by 10: the record holds one score per indicator, an
    indicator that is not in the sheet has score 0, and the divisor is
    10 whatever the number of indicators found. *)
Theorem C1_cix_total_suma_entre_diez
    rc rx (file_bytes : list N) (file_name : str) avisos r :
  procesar_evaluacion_empresa rc rx file_bytes file_name = (avisos, Some r) ->
  exists (df : DataFrame) (ps : list Q),
    lectura rc rx file_bytes file_name = Some (Ok df)
    /\ ps = map (puntuacion df) INDICADORES_A_EVALUAR
    /\ List.length ps = 10%nat
    /\ map (numero r) claves_indicadores = map Some ps
    /\ numero r (u "cix_total") = Some (suma ps / inject_Z 10)
    /\ (forall n,
          (forall j, coincide (nth j (filas df) []) n = false) ->
          puntuacion df n = 0).
Proof.
  intros H. apply procesar_Some in H.
  destruct H as (df & Hl & _ & _ & -> & _).
  exists df, (map (puntuacion df) INDICADORES_A_EVALUAR).
  split; [exact Hl|]. split; [reflexivity|].
  split; [now rewrite length_map|].
  split; [|split].
  - unfold claves_indicadores. rewrite !map_map.
    apply map_ext_in. intros n Hn. now apply registro_indicador.
  - apply registro_cix_total.
  - intros n Hn. unfold puntuacion.
    pose proof (coincidencias_primero df n) as Hp.
    destruct (coincidencias df n) as [|i rest]; [reflexivity|].
    destruct Hp as (_ & Hi & _). rewrite Hn in Hi. discriminate.
Qed.

Lemma C1_witness :
  exists (df : DataFrame) (ps : list Q),
    lectura lector_roto (lector_fijo hoja_ejemplo) [] archivo_ejemplo
    = Some (Ok df)
    /\ ps = map (puntuacion df) INDICADORES_A_EVALUAR
    /\ List.length ps = 10%nat
    /\ map (numero (registro hoja_ejemplo archivo_ejemplo))
           claves_indicadores = map Some ps
    /\ numero (registro hoja_ejemplo archivo_ejemplo) (u "cix_total")
       = Some (suma ps / inject_Z 10)
    /\ (forall n,
          (forall j, coincide (nth j (filas df) []) n = false) ->
          puntuacion df n = 0).
Proof.
  apply (@C1_cix_total_suma_entre_diez
           lector_roto (lector_fijo hoja_ejemplo) [] archivo_ejemplo
           [st_info (Procesando archivo_ejemplo)]
           (registro hoja_ejemplo archivo_ejemplo)).
  vm_compute. reflexivity.
Defined.

(** The worked example of the specification: one indicator at 0.8, the
    other nine at 0, total 0.08. *)
Example ejemplo_total :
  exists q,
    numero (registro hoja_ejemplo archivo_ejemplo) (u "cix_total") = Some q
    /\ q == 8 # 100.
Proof. eexists. split; [vm_compute; reflexivity | reflexivity]. Qed.

(** ** C2 *)

Lemma pesos_valores : pesos = [0; 4 # 10; 8 # 10; 1].
Proof. reflexivity. Qed.

Ltac sin_marca Hprev j :=
  let H := fresh "Hj" in
  pose proof (Hprev j ltac:(lia)) as H; cbn [Nat.add] in H;
  rewrite H; clear H.

(** The score of a row is the weight of its first marked rating column,
    and 0 when no rating column is marked. *)
Lemma puntuacion_fila_primera_marca (df : DataFrame) (i k : nat) :
  (k < 4)%nat ->
  marca_en df i (4 + k) = true ->
  (forall j, (j < k)%nat -> marca_en df i (4 + j) = false) ->
  puntuacion_fila df i = nth k pesos 0.
Proof.
  intros Hk Hm Hprev. unfold puntuacion_fila.
  destruct k as [|[|[|[|k]]]]; [| | | |lia]; cbn [Nat.add] in Hm.
  - rewrite Hm. reflexivity.
  - sin_marca Hprev 0%nat. rewrite Hm. reflexivity.
  - sin_marca Hprev 0%nat. sin_marca Hprev 1%nat. rewrite Hm. reflexivity.
  - sin_marca Hprev 0%nat. sin_marca Hprev 1%nat. sin_marca Hprev 2%nat.
    rewrite Hm. reflexivity.
Qed.

Lemma puntuacion_fila_sin_marca (df : DataFrame) (i : nat) :
  (forall k, (k < 4)%nat -> marca_en df i (4 + k) = false) ->
  puntuacion_fila df i = 0.
Proof.
  intros H. unfold puntuacion_fila.
  sin_marca H 0%nat. sin_marca H 1%nat. sin_marca H 2%nat.
  sin_marca H 3%nat. reflexivity.
Qed.

(** C2. For an indicator found in the sheet (in row [i], the row the
    routine selects), the recorded score is decided by columns 4, 5, 6, 7
    in that order: the first of them whose cell, printed, stripped and
    lower-cased, is ["x"] gives the score 0, 0.4, 0.8 or 1 of its
    position, and the score is 0 when none of the four is such a cell. *)
Theorem C2_primera_marca_decide
    rc rx (file_bytes : list N) (file_name : str) avisos r df n i resto :
  procesar_evaluacion_empresa rc rx file_bytes file_name = (avisos, Some r) ->
  lectura rc rx file_bytes file_name = Some (Ok df) ->
  In n INDICADORES_A_EVALUAR ->
  coincidencias df n = i :: resto ->
  (forall k, (k < 4)%nat ->
     marca_en df i (4 + k) = true ->
     (forall j, (j < k)%nat -> marca_en df i (4 + j) = false) ->
     numero r (snake_case n) = Some (nth k [0; 4 # 10; 8 # 10; 1] 0))
  /\ ((forall k, (k < 4)%nat -> marca_en df i (4 + k) = false) ->
      numero r (snake_case n) = Some 0).
Proof.
  intros H Hl Hn Hi. apply procesar_Some in H.
  destruct H as (df' & Hl' & _ & _ & -> & _).
  rewrite Hl in Hl'. injection Hl' as <-.
  rewrite (@registro_indicador df file_name n Hn).
  unfold puntuacion. rewrite Hi. split.
  - intros k Hk Hm Hprev. f_equal. rewrite <- pesos_valores.
    now apply puntuacion_fila_primera_marca.
  - intros Hnone. f_equal. now apply puntuacion_fila_sin_marca.
Qed.

Lemma C2_witness :
  (forall k, (k < 4)%nat ->
     marca_en hoja_ejemplo 8 (4 + k) = true ->
     (forall j, (j < k)%nat -> marca_en hoja_ejemplo 8 (4 + j) = false) ->
     numero (registro hoja_ejemplo archivo_ejemplo)
            (snake_case (u "Alcance 1"))
     = Some (nth k [0; 4 # 10; 8 # 10; 1] 0))
  /\ ((forall k, (k < 4)%nat -> marca_en hoja_ejemplo 8 (4 + k) = false) ->
      numero (registro hoja_ejemplo archivo_ejemplo)
             (snake_case (u "Alcance 1")) = Some 0).
Proof.
  apply (@C2_primera_marca_decide
           lector_roto (lector_fijo hoja_ejemplo) [] archivo_ejemplo
           [st_info (Procesando archivo_ejemplo)]
           (registro hoja_ejemplo archivo_ejemplo)
           hoja_ejemplo (u "Alcance 1") 8%nat [9%nat]).
  - vm_compute. reflexivity.
  - reflexivity.
  - vm_compute. tauto.
  - reflexivity.
Defined.

(** On the sample sheet the mark of row 8 is in column 6. *)
Example ejemplo_alcance_1 :
  marca_en hoja_ejemplo 8 6 = true
  /\ numero (registro hoja_ejemplo archivo_ejemplo)
            (snake_case (u "Alcance 1")) = Some (8 # 10).
Proof. split; vm_compute; reflexivity. Qed.

(** ** C3 *)

Lemma puntuacion_ausente (df : DataFrame) (n : str) :
  (forall j, coincide (nth j (filas df) []) n = false) ->
  puntuacion df n = 0.
Proof.
  intros Hn. unfold puntuacion.
  pose proof (coincidencias_primero df n) as Hp.
  destruct (coincidencias df n) as [|i rest]; trivial.
  destruct Hp as (_ & Hi & _). rewrite Hn in Hi. discriminate.
Qed.

Lemma claves_registro_sin_repetir :
  NoDup (claves_metadatos ++ claves_indicadores).
Proof.
  apply (NoDup_count_occ' (list_eq_dec N.eq_dec)).
  intros k Hk.
  repeat (destruct Hk as [<-|Hk]; [vm_compute; reflexivity|]).
  destruct Hk.
Qed.

(** C3. A sheet that was read and has the metadata cells (at least 8
    rows and 2 columns) always gives a record, whichever indicators it
    holds.  The record has the four metadata keys and exactly the ten
    indicator keys, all distinct, each indicator key with a score; an
    indicator whose name is in neither column 0 nor column 1 of any row
    has score 0. *)
Theorem C3_diez_indicadores
    rc rx (file_bytes : list N) (file_name : str) df :
  lectura rc rx file_bytes file_name = Some (Ok df) ->
  (8 <= nrows df)%nat -> (2 <= ncols df)%nat ->
  exists r,
    procesar_evaluacion_empresa rc rx file_bytes file_name
    = ([st_info (Procesando file_name)], Some r)
    /\ Dict.keys r = claves_metadatos ++ claves_indicadores
    /\ NoDup (Dict.keys r)
    /\ List.length claves_indicadores = 10%nat
    /\ (forall n, In n INDICADORES_A_EVALUAR ->
          exists q, numero r (snake_case n) = Some q)
    /\ (forall n, In n INDICADORES_A_EVALUAR ->
          (forall j, coincide (nth j (filas df) []) n = false) ->
          numero r (snake_case n) = Some 0).
Proof.
  intros Hl Hr Hc. exists (registro df file_name).
  split; [now apply procesar_leido|].
  rewrite registro_claves.
  split; [reflexivity|]. split; [apply claves_registro_sin_repetir|].
  split; [reflexivity|]. split.
  - intros n Hn. eexists. now apply registro_indicador.
  - intros n Hn Habs. rewrite (@registro_indicador df file_name n Hn).
    f_equal. now apply puntuacion_ausente.
Qed.

Lemma C3_witness :
  exists r,
    procesar_evaluacion_empresa lector_roto (lector_fijo hoja_ejemplo) []
      archivo_ejemplo
    = ([st_info (Procesando archivo_ejemplo)], Some r)
    /\ Dict.keys r = claves_metadatos ++ claves_indicadores
    /\ NoDup (Dict.keys r)
    /\ List.length claves_indicadores = 10%nat
    /\ (forall n, In n INDICADORES_A_EVALUAR ->
          exists q, numero r (snake_case n) = Some q)
    /\ (forall n, In n INDICADORES_A_EVALUAR ->
          (forall j, coincide (nth j (filas hoja_ejemplo) []) n = false) ->
          numero r (snake_case n) = Some 0).
Proof.
  apply (@C3_diez_indicadores
           lector_roto (lector_fijo hoja_ejemplo) [] archivo_ejemplo
           hoja_ejemplo).
  - reflexivity.
  - vm_compute. lia.
  - vm_compute. lia.
Defined.

(** ** C4 *)

(** C4, as stated, fails: a sheet of three rows has no cell (5,1), and the
    access is an out-of-bounds failure, reported through the handler; no
    default value is used and no record is produced. *)
Lemma C4_contraejemplo :
  (nrows hoja_corta < 8)%nat
  /\ iloc hoja_corta 5 1 = Raise IndexError
  /\ procesar_evaluacion_empresa (lector_fijo hoja_corta) lector_roto []
       (u "corta.csv")
     = ([st_info (Procesando (u "corta.csv"));
         st_error (ErrorAlProcesar (u "corta.csv") IndexError)], None).
Proof. repeat split; vm_compute; try reflexivity; lia. Qed.

Lemma marca_en_fuera (df : DataFrame) (r c : nat) :
  (ncols df <= c)%nat -> marca_en df r c = false.
Proof.
  intros H. unfold marca_en.
  destruct (Nat.ltb_spec c (ncols df)); [lia | reflexivity].
Qed.

(** C4, amended. Only the rating columns 4 to 7 are guarded: one that
    lies beyond the width of the sheet is skipped as holding no mark, and
    a sheet with at least 8 rows and 2 columns gives a record whatever
    its width.  The metadata cells (5,1), (6,1), (7,1) and the name search
    over columns 0 and 1 are not guarded: a sheet with fewer than 8 rows
    or fewer than 2 columns makes the routine fail with the out-of-bounds
    error, reported with the file name, and give no record. *)
Theorem C4_solo_columnas_de_calificacion
    rc rx (file_bytes : list N) (file_name : str) df :
  lectura rc rx file_bytes file_name = Some (Ok df) ->
  (forall r c, (ncols df <= c)%nat -> marca_en df r c = false)
  /\ ((8 <= nrows df)%nat -> (2 <= ncols df)%nat ->
      exists r,
        procesar_evaluacion_empresa rc rx file_bytes file_name
        = ([st_info (Procesando file_name)], Some r)
        /\ forall n, In n INDICADORES_A_EVALUAR ->
             numero r (snake_case n) = Some (puntuacion df n))
  /\ ((nrows df < 8)%nat \/ (ncols df < 2)%nat ->
      procesar_evaluacion_empresa rc rx file_bytes file_name
      = ([st_info (Procesando file_name);
          st_error (ErrorAlProcesar file_name IndexError)], None)).
Proof.
  intros Hl. split; [|split].
  - intros r c. apply marca_en_fuera.
  - intros Hr Hc. exists (registro df file_name).
    split; [now apply procesar_leido|].
    intros n Hn. now apply registro_indicador.
  - intros H. rewrite procesar_casos, Hl.
    destruct (Nat.leb_spec 8 (nrows df)), (Nat.leb_spec 2 (ncols df));
      cbn [andb]; trivial; lia.
Qed.

Lemma C4_witness :
  (forall r c, (ncols hoja_estrecha <= c)%nat ->
     marca_en hoja_estrecha r c = false)
  /\ ((8 <= nrows hoja_estrecha)%nat -> (2 <= ncols hoja_estrecha)%nat ->
      exists r,
        procesar_evaluacion_empresa (lector_fijo hoja_estrecha) lector_roto
          [] (u "acme.csv")
        = ([st_info (Procesando (u "acme.csv"))], Some r)
        /\ forall n, In n INDICADORES_A_EVALUAR ->
             numero r (snake_case n) = Some (puntuacion hoja_estrecha n))
  /\ ((nrows hoja_estrecha < 8)%nat \/ (ncols hoja_estrecha < 2)%nat ->
      procesar_evaluacion_empresa (lector_fijo hoja_estrecha) lector_roto
        [] (u "acme.csv")
      = ([st_info (Procesando (u "acme.csv"));
          st_error (ErrorAlProcesar (u "acme.csv") IndexError)], None)).
Proof.
  apply (@C4_solo_columnas_de_calificacion
           (lector_fijo hoja_estrecha) lector_roto [] (u "acme.csv")
           hoja_estrecha).
  reflexivity.
Defined.

(** On the six-column sheet the mark in column 5 counts and the missing
    columns 6 and 7 are passed over. *)
Example ejemplo_estrecha :
  puntuacion hoja_estrecha (u "Alcance 2") = 4 # 10
  /\ puntuacion hoja_estrecha (u "Consolidación") = 0.
Proof. split; vm_compute; reflexivity. Qed.

(** ** C5 *)

(** C5, as stated, fails on the default of the period: with the period
    cell (6,1) blank, the record holds the text "Desconocido", not
    "Unknown". *)
Lemma C5_contraejemplo :
  isna (celda_en hoja_ejemplo 6 1) = true
  /\ exists r,
       procesar_evaluacion_empresa lector_roto (lector_fijo hoja_ejemplo) []
         archivo_ejemplo
       = ([st_info (Procesando archivo_ejemplo)], Some r)
       /\ Dict.get r (u "periodo_informe")
          = Some (VCelda (Texto (u "Desconocido")))
       /\ Dict.get r (u "periodo_informe")
          <> Some (VCelda (Texto (u "Unknown"))).
Proof.
  split; [reflexivity|].
  exists (registro hoja_ejemplo archivo_ejemplo).
  split; [vm_compute; reflexivity|].
  split; [vm_compute; reflexivity|].
  vm_compute. discriminate.
Qed.

(** The first piece of [split] is the text before the first separator:
    it holds no separator, and the name is that piece alone or that piece,
    a separator and a rest. *)
Lemma split_primero (sep : N) (s : str) :
  ~ In sep (hd [] (split sep s))
  /\ (s = hd [] (split sep s)
      \/ exists resto, s = hd [] (split sep s) ++ sep :: resto).
Proof.
  induction s as [|c t IH]; simpl.
  - split; [tauto | now left].
  - destruct (N.eqb_spec c sep) as [->|Hne]; simpl.
    + split; [tauto | right; now exists t].
    + pose proof (split_no_vacio sep t) as Hnv.
      destruct (split sep t) as [|w ws]; [congruence|].
      simpl in *. destruct IH as (Hin & Hs). split.
      * intros [H|H]; [congruence | tauto].
      * destruct Hs as [->|[resto ->]]; [now left|].
        right. now exists resto.
Qed.

(** C5, amended. The organisation, the period and the link are read from
    the cells (5,1), (6,1) and (7,1), counted from 0.  A blank
    organisation cell gives the piece of the file name before its first
    "-", with the texts ".xlsx" and then ".csv" removed from it (so
    "AcmeCorp-2024.xlsx" gives "AcmeCorp"); a blank period cell gives the
    literal "Desconocido"; a blank link cell gives the literal "N/A". *)
Theorem C5_metadatos
    rc rx (file_bytes : list N) (file_name : str) avisos r df :
  procesar_evaluacion_empresa rc rx file_bytes file_name = (avisos, Some r) ->
  lectura rc rx file_bytes file_name = Some (Ok df) ->
  let prefijo := hd [] (split 45 file_name) in
  Dict.get r (u "organizacion_nombre")
  = Some (VCelda
            (if isna (celda_en df 5 1)
             then Texto (replace (replace prefijo (u ".xlsx") [])
                                 (u ".csv") [])
             else celda_en df 5 1))
  /\ Dict.get r (u "periodo_informe")
     = Some (VCelda (if isna (celda_en df 6 1)
                     then Texto (u "Desconocido") else celda_en df 6 1))
  /\ Dict.get r (u "enlace_original_documentacion")
     = Some (VCelda (if isna (celda_en df 7 1)
                     then Texto (u "N/A") else celda_en df 7 1))
  /\ ~ In 45%N prefijo
  /\ (file_name = prefijo
      \/ exists resto, file_name = prefijo ++ 45%N :: resto).
Proof.
  intros H Hl prefijo. apply procesar_Some in H.
  destruct H as (df' & Hl' & _ & _ & -> & _).
  rewrite Hl in Hl'. injection Hl' as <-.
  rewrite registro_forma.
  repeat split; try reflexivity; apply (split_primero 45 file_name).
Qed.

Lemma C5_witness :
  let prefijo := hd [] (split 45 archivo_ejemplo) in
  Dict.get (registro hoja_ejemplo archivo_ejemplo) (u "organizacion_nombre")
  = Some (VCelda
            (if isna (celda_en hoja_ejemplo 5 1)
             then Texto (replace (replace prefijo (u ".xlsx") [])
                                 (u ".csv") [])
             else celda_en hoja_ejemplo 5 1))
  /\ Dict.get (registro hoja_ejemplo archivo_ejemplo) (u "periodo_informe")
     = Some (VCelda (if isna (celda_en hoja_ejemplo 6 1)
                     then Texto (u "Desconocido")
                     else celda_en hoja_ejemplo 6 1))
  /\ Dict.get (registro hoja_ejemplo archivo_ejemplo)
       (u "enlace_original_documentacion")
     = Some (VCelda (if isna (celda_en hoja_ejemplo 7 1)
                     then Texto (u "N/A") else celda_en hoja_ejemplo 7 1))
  /\ ~ In 45%N prefijo
  /\ (archivo_ejemplo = prefijo
      \/ exists resto, archivo_ejemplo = prefijo ++ 45%N :: resto).
Proof.
  apply (@C5_metadatos
           lector_roto (lector_fijo hoja_ejemplo) [] archivo_ejemplo
           [st_info (Procesando archivo_ejemplo)]
           (registro hoja_ejemplo archivo_ejemplo) hoja_ejemplo).
  - vm_compute. reflexivity.
  - reflexivity.
Defined.

(** The example of the specification, and a sheet whose metadata cells
    are filled in. *)
Example ejemplo_acmecorp :
  Dict.get (registro hoja_ejemplo archivo_ejemplo) (u "organizacion_nombre")
  = Some (VCelda (Texto (u "AcmeCorp"))).
Proof. vm_compute. reflexivity. Qed.

Example ejemplo_metadatos_presentes :
  Dict.get (registro hoja_estrecha (u "acme.csv")) (u "organizacion_nombre")
  = Some (VCelda (Texto (u "Acme S.A.")))
  /\ Dict.get (registro hoja_estrecha (u "acme.csv")) (u "periodo_informe")
     = Some (VCelda (Escalar (u "2024"))).
Proof. split; vm_compute; reflexivity. Qed.

(** ** C6 *)

(** C6. A file name that ends, whatever the case of its letters, neither
    in ".csv" nor in ".xlsx" is handed to no parser: whatever the parsers
    and the bytes, the routine reports the unsupported format with the
    file name and gives no record. *)
Theorem C6_formato_no_soportado (file_name : str) :
  ~ termina_en file_name (u ".csv") ->
  ~ termina_en file_name (u ".xlsx") ->
  forall rc rx (file_bytes : list N),
    lectura rc rx file_bytes file_name = None
    /\ procesar_evaluacion_empresa rc rx file_bytes file_name
       = ([st_info (Procesando file_name);
           st_error (FormatoNoSoportado file_name)], None).
Proof.
  intros Hcsv Hxlsx rc rx file_bytes.
  assert (Hl : lectura rc rx file_bytes file_name = None).
  { unfold lectura.
    destruct (endswith (lower file_name) (u ".csv")) eqn:E1.
    { apply endswith_lower in E1. contradiction. }
    destruct (endswith (lower file_name) (u ".xlsx")) eqn:E2.
    { apply endswith_lower in E2. contradiction. }
    reflexivity. }
  split; trivial. now rewrite procesar_casos, Hl.
Qed.

Lemma no_termina_en (file_name ext : str) :
  endswith (lower file_name) ext = false -> ~ termina_en file_name ext.
Proof.
  intros H Ht. apply endswith_lower in Ht. congruence.
Qed.

Lemma C6_witness :
  lectura (lector_fijo hoja_ejemplo) (lector_fijo hoja_ejemplo) []
    (u "informe.txt") = None
  /\ procesar_evaluacion_empresa (lector_fijo hoja_ejemplo)
       (lector_fijo hoja_ejemplo) [] (u "informe.txt")
     = ([st_info (Procesando (u "informe.txt"));
         st_error (FormatoNoSoportado (u "informe.txt"))], None).
Proof.
  apply (@C6_formato_no_soportado (u "informe.txt")).
  - apply no_termina_en. reflexivity.
  - apply no_termina_en. reflexivity.
Defined.

(** The two supported suffixes reach their parser in any letter case. *)
Example ejemplo_sufijos :
  lectura (lector_fijo hoja_ejemplo) lector_roto [] (u "Informe.CSV")
  = Some (Ok hoja_ejemplo)
  /\ lectura lector_roto (lector_fijo hoja_ejemplo) [] (u "Informe.XlsX")
     = Some (Ok hoja_ejemplo).
Proof. split; reflexivity. Qed.

(** ** C7 *)

(** C7. An exception raised while reading or extracting is caught: the
    routine reports it together with the file name and gives no record.
    This holds for whatever the [try] block raises, for the exception of
    a parser, and for the out-of-bounds error of a sheet without the
    metadata cells.  What the routine returns is nothing at all or a
    record with all its fourteen keys. *)
Theorem C7_todo_o_nada rc rx (file_bytes : list N) (file_name : str) :
  (forall e,
     cuerpo_try rc rx file_bytes file_name = Raise e ->
     procesar_evaluacion_empresa rc rx file_bytes file_name
     = ([st_info (Procesando file_name);
         st_error (ErrorAlProcesar file_name e)], None))
  /\ (forall e,
        lectura rc rx file_bytes file_name = Some (Raise e) ->
        cuerpo_try rc rx file_bytes file_name = Raise e)
  /\ (forall df,
        lectura rc rx file_bytes file_name = Some (Ok df) ->
        (nrows df < 8)%nat \/ (ncols df < 2)%nat ->
        cuerpo_try rc rx file_bytes file_name = Raise IndexError)
  /\ (snd (procesar_evaluacion_empresa rc rx file_bytes file_name) = None
      \/ exists r,
           snd (procesar_evaluacion_empresa rc rx file_bytes file_name)
           = Some r
           /\ Dict.keys r = claves_metadatos ++ claves_indicadores
           /\ forall k, In k (Dict.keys r) -> Dict.get r k <> None).
Proof.
  split; [|split; [|split]].
  - intros e He. unfold procesar_evaluacion_empresa. now rewrite He.
  - intros e. unfold lectura, cuerpo_try.
    destruct (endswith (lower file_name) (u ".csv")).
    { intros H. injection H as ->. reflexivity. }
    destruct (endswith (lower file_name) (u ".xlsx")); [|discriminate].
    intros H. injection H as ->. reflexivity.
  - intros df. unfold lectura, cuerpo_try.
    destruct (endswith (lower file_name) (u ".csv")).
    { intros H Hd. injection H as ->. cbn [bind].
      now rewrite (@extraer_fuera df file_name Hd). }
    destruct (endswith (lower file_name) (u ".xlsx")); [|discriminate].
    intros H Hd. injection H as ->. cbn [bind].
    now rewrite (@extraer_fuera df file_name Hd).
  - rewrite procesar_casos.
    destruct (lectura rc rx file_bytes file_name) as [[df|e]|];
      [|now left|now left].
    destruct ((8 <=? nrows df) && (2 <=? ncols df)); [|now left].
    right. exists (registro df file_name). cbn [snd].
    split; [reflexivity|]. split; [apply registro_claves|].
    intros k Hk. rewrite registro_claves in Hk.
    now apply registro_completo.
Qed.

Lemma C7_witness :
  cuerpo_try lector_roto lector_roto [] (u "roto.csv")
  = Raise (OtraExcepcion (u "No columns to parse from file"))
  /\ procesar_evaluacion_empresa lector_roto lector_roto [] (u "roto.csv")
     = ([st_info (Procesando (u "roto.csv"));
         st_error (ErrorAlProcesar (u "roto.csv")
                     (OtraExcepcion (u "No columns to parse from file")))],
        None).
Proof.
  assert (H : cuerpo_try lector_roto lector_roto [] (u "roto.csv")
              = Raise (OtraExcepcion (u "No columns to parse from file")))
    by reflexivity.
  split; [exact H|].
  exact (proj1 (@C7_todo_o_nada lector_roto lector_roto [] (u "roto.csv"))
               _ H).
Defined.

(** ** C8 *)

(** C8, as stated, fails when the removal of the file fails by raising:
    with the storage service unreachable the routine stops at the
    handler, shows an error and no warning, and the row is still in the
    table. *)
Lemma C8_contraejemplo :
  eliminar_evaluacion_de_db nube_remove nube_delete
    (u "7f3c") (u "AcmeCorp-2024.xlsx") (nube_ejemplo false)
  = (nube_ejemplo false,
     [st_error (ExcepcionAlEliminar
                  (OtraExcepcion (u "storage unreachable")))])
  /\ contiene (u "7f3c")
       (tabla (fst (eliminar_evaluacion_de_db nube_remove nube_delete
                      (u "7f3c") (u "AcmeCorp-2024.xlsx")
                      (nube_ejemplo false)))) = true.
Proof. split; vm_compute; reflexivity. Qed.

(** C8, amended. The file is removed first and the row is deleted second,
    by its identifier, in the state the removal left.  When the removal
    returns, the row deletion is carried out whatever it returned: an
    error in what it returned (as for a file already absent) is shown as
    a warning, and otherwise its success is shown.  When the removal
    raises, the routine stops with an error notice and the row deletion
    is not attempted.  Nothing is undone in either case: the final state
    is the one left by the last call made. *)
Theorem C8_eliminar_en_orden
    (estado : Type)
    (storage_remove :
       estado -> str -> list str -> estado * resultado (option respuesta))
    (table_delete_eq :
       estado -> str -> str -> str -> estado * resultado respuesta)
    (eval_id file_name_in_storage : str) (s : estado) :
  let paso1 :=
    storage_remove s SUPABASE_BUCKET_NAME [file_name_in_storage] in
  let paso2 :=
    table_delete_eq (fst paso1) (u "evaluaciones") (u "id") eval_id in
  let final :=
    eliminar_evaluacion_de_db storage_remove table_delete_eq
      eval_id file_name_in_storage s in
  (forall res_storage,
     snd paso1 = Ok res_storage ->
     fst final = fst paso2
     /\ hd_error (snd final)
        = Some (aviso_storage file_name_in_storage res_storage)
     /\ (forall r msg,
           res_storage = Some r -> error r = Some msg ->
           hd_error (snd final)
           = Some (st_warning
                     (ErrorEliminarArchivo file_name_in_storage msg)))
     /\ (forall response,
           snd paso2 = Ok response ->
           snd final = [aviso_storage file_name_in_storage res_storage;
                        aviso_db response])
     /\ (forall e,
           snd paso2 = Raise e ->
           snd final = [aviso_storage file_name_in_storage res_storage;
                        st_error (ExcepcionAlEliminar e)]))
  /\ (forall e,
        snd paso1 = Raise e ->
        final = (fst paso1, [st_error (ExcepcionAlEliminar e)])).
Proof.
  intros paso1 paso2 final. subst final paso2 paso1.
  unfold eliminar_evaluacion_de_db.
  destruct (storage_remove s SUPABASE_BUCKET_NAME [file_name_in_storage])
    as [s1 [res|e1]]; cbn [fst snd].
  - split; [|discriminate].
    intros res_storage H. injection H as <-.
    destruct (table_delete_eq s1 (u "evaluaciones") (u "id") eval_id)
      as [s2 [response|e2]]; cbn [fst snd hd_error].
    + repeat split; trivial.
      * intros r msg -> Hm. unfold aviso_storage. now rewrite Hm.
      * intros response' H. now injection H as <-.
      * discriminate.
    + repeat split; trivial.
      * intros r msg -> Hm. unfold aviso_storage. now rewrite Hm.
      * discriminate.
      * intros e H. now injection H as <-.
  - split; [discriminate|].
    intros e H. now injection H as <-.
Qed.

Lemma C8_witness :
  let s := {| archivos := []; tabla := [u "7f3c"];
              storage_en_linea := true |} in
  let final :=
    eliminar_evaluacion_de_db nube_remove nube_delete
      (u "7f3c") (u "AcmeCorp-2024.xlsx") s in
  tabla (fst final) = []
  /\ snd final
     = [st_warning (ErrorEliminarArchivo (u "AcmeCorp-2024.xlsx")
                      (u "Object not found"));
        st_success EvaluacionEliminada].
Proof.
  intros s final.
  pose proof (@C8_eliminar_en_orden nube nube_remove nube_delete
                (u "7f3c") (u "AcmeCorp-2024.xlsx") s) as H.
  cbv zeta in H. destruct H as (H & _).
  specialize (H (Some {| data := [];
                         error := Some (u "Object not found") |})
                eq_refl).
  destruct H as (Hst & _ & _ & Hav & _).
  split.
  - subst final. rewrite Hst. reflexivity.
  - subst final.
    rewrite (Hav {| data := [u "7f3c"]; error := None |} eq_refl).
    reflexivity.
Defined.

(** With the file in place and the service up, both are deleted. *)
Example ejemplo_eliminar :
  eliminar_evaluacion_de_db nube_remove nube_delete
    (u "7f3c") (u "AcmeCorp-2024.xlsx") (nube_ejemplo true)
  = ({| archivos := []; tabla := []; storage_en_linea := true |},
     [st_success (ArchivoEliminado (u "AcmeCorp-2024.xlsx"));
      st_success EvaluacionEliminada]).
Proof. vm_compute. reflexivity. Qed.

(** ** C9 *)






(** In a session the second of two equal calls is answered from the
    cache, and after a clearing the body runs again; the record is the
    same each time. *)
Example ejemplo_cache :
  let rc := lector_roto in
  let rx := lector_fijo hoja_ejemplo in
  let c1 := fst (procesar_con_cache rc rx [] [80; 75]%N archivo_ejemplo) in
  List.length c1 = 1%nat
  /\ fst (procesar_con_cache rc rx c1 [80; 75]%N archivo_ejemplo) = c1
  /\ snd (snd (procesar_con_cache rc rx c1 [80; 75]%N archivo_ejemplo))
     = Some (registro hoja_ejemplo archivo_ejemplo)
  /\ snd (snd (procesar_con_cache rc rx (ejecutar rc rx c1 [Limpiar])
                 [80; 75]%N archivo_ejemplo))
     = Some (registro hoja_ejemplo archivo_ejemplo).
Proof.
  intros rc rx c1.
  split; [vm_compute; reflexivity|]. split; [vm_compute; reflexivity|].
  split; vm_compute; reflexivity.
Qed.

(** ** C10 *)

Lemma puntuacion_fila_local (df df' : DataFrame) (i : nat) :
  ncols df' = ncols df ->
  nth i (filas df') [] = nth i (filas df) [] ->
  puntuacion_fila df' i = puntuacion_fila df i.
Proof.
  intros Hc Hf. unfold puntuacion_fila, marca_en, celda_en.
  now rewrite Hc, Hf.
Qed.

(** C10. When the name of an indicator stands in column 0 or 1 of row
    [i] and of no earlier row, the recorded score is that of row [i]
    alone: it is read from the rating columns of row [i], and a sheet of
    the same width with the same row [i] and the name in no earlier row
    gets the same score, whatever its later rows hold. *)
Theorem C10_primera_fila_coincidente
    rc rx (file_bytes : list N) (file_name : str) avisos r df n i :
  procesar_evaluacion_empresa rc rx file_bytes file_name = (avisos, Some r) ->
  lectura rc rx file_bytes file_name = Some (Ok df) ->
  In n INDICADORES_A_EVALUAR ->
  coincide (nth i (filas df) []) n = true ->
  (forall j, (j < i)%nat -> coincide (nth j (filas df) []) n = false) ->
  numero r (snake_case n) = Some (puntuacion_fila df i)
  /\ (forall df',
        ncols df' = ncols df ->
        nth i (filas df') [] = nth i (filas df) [] ->
        (forall j, (j < i)%nat ->
           coincide (nth j (filas df') []) n = false) ->
        puntuacion df' n = puntuacion_fila df i).
Proof.
  intros H Hl Hn Hi Hmin. apply procesar_Some in H.
  destruct H as (df0 & Hl' & _ & _ & -> & _).
  rewrite Hl in Hl'. injection Hl' as <-.
  rewrite (@registro_indicador df file_name n Hn). split.
  - destruct (@coincidencias_menor df n i Hi Hmin) as [resto Hc].
    unfold puntuacion. now rewrite Hc.
  - intros df' Hc Hf Hmin'.
    assert (Hi' : coincide (nth i (filas df') []) n = true)
      by now rewrite Hf.
    destruct (@coincidencias_menor df' n i Hi' Hmin') as [resto Hco].
    unfold puntuacion. rewrite Hco. now apply puntuacion_fila_local.
Qed.

Lemma C10_witness :
  numero (registro hoja_ejemplo archivo_ejemplo) (snake_case (u "Alcance 1"))
  = Some (puntuacion_fila hoja_ejemplo 8)
  /\ (forall df',
        ncols df' = ncols hoja_ejemplo ->
        nth 8 (filas df') [] = nth 8 (filas hoja_ejemplo) [] ->
        (forall j, (j < 8)%nat ->
           coincide (nth j (filas df') []) (u "Alcance 1") = false) ->
        puntuacion df' (u "Alcance 1") = puntuacion_fila hoja_ejemplo 8).
Proof.
  apply (@C10_primera_fila_coincidente
           lector_roto (lector_fijo hoja_ejemplo) [] archivo_ejemplo
           [st_info (Procesando archivo_ejemplo)]
           (registro hoja_ejemplo archivo_ejemplo)
           hoja_ejemplo (u "Alcance 1") 8%nat).
  - vm_compute. reflexivity.
  - reflexivity.
  - vm_compute. tauto.
  - reflexivity.
  - intros j Hj.
    do 8 (destruct j as [|j]; [reflexivity|]). lia.
Defined.

(** On the sample sheet "Alcance 1" is in rows 8 and 9; row 9 carries the
    mark of weight 1, and the score is the 0.8 of row 8. *)
Example ejemplo_fila_repetida :
  coincidencias hoja_ejemplo (u "Alcance 1") = [8; 9]%nat
  /\ puntuacion_fila hoja_ejemplo 9 = 1
  /\ puntuacion hoja_ejemplo (u "Alcance 1") = 8 # 10.
Proof. repeat split; vm_compute; reflexivity. Qed.

(* ------------------------------------------------------------------ *)
(** * Further properties *)

(** ** Texts *)

Lemma replace_uno (a b : N) (s : str) :
  replace s [a] [b] = map (fun c => if (c =? a)%N then b else c) s.
Proof.
  unfold replace. induction s as [|c t IH]; [reflexivity|].
  cbn [replace_from startswith map List.length Nat.sub app].
  destruct (c =? a)%N; cbn [andb]; rewrite IH.
  - destruct t; reflexivity.
  - reflexivity.
Qed.

Lemma snake_case_map (key : str) :
  snake_case key
  = map (fun c => if (c =? 45)%N then 95%N else c)
        (map (fun c => if (c =? 32)%N then 95%N else c) (lower key)).
Proof.
  unfold snake_case.
  change (u " ") with [32%N]. change (u "_") with [95%N].
  change (u "-") with [45%N].
  now rewrite !replace_uno.
Qed.

(** X1. For a name made of ASCII code points and lower-case Latin-1
    letters - the ten configured names are such names, and on them
    [lower] is exactly [str.lower()] - the key has the length of the name
    and holds no space, no hyphen and no ASCII capital letter. *)
Theorem snake_case_limpio (key : str) :
  (forall c, In c key -> (c < 128)%N \/ (223 <= c <= 255)%N) ->
  List.length (snake_case key) = List.length key
  /\ forall c, In c (snake_case key) ->
       c <> 32%N /\ c <> 45%N /\ ~ (65 <= c <= 90)%N.
Proof.
  intros _. rewrite snake_case_map. unfold lower. split.
  - now rewrite !length_map.
  - intros c Hc. rewrite !map_map in Hc. apply in_map_iff in Hc.
    destruct Hc as (x & <- & _). unfold lower_cp.
    destruct ((65 <=? x) && (x <=? 90))%N eqn:E.
    + apply andb_true_iff in E. destruct E as [E1 E2].
      apply N.leb_le in E1. apply N.leb_le in E2.
      destruct (N.eqb_spec (x + 32) 32); [lia|].
      destruct (N.eqb_spec (x + 32) 45); lia.
    + assert (Hx : ~ (65 <= x <= 90)%N).
      { intros [H1 H2]. apply N.leb_le in H1. apply N.leb_le in H2.
        rewrite H1, H2 in E. discriminate. }
      destruct (N.eqb_spec x 32) as [->|H32].
      * cbn. lia.
      * destruct (N.eqb_spec x 45) as [->|H45]; [cbn; lia|].
        repeat split; trivial.
Qed.

Lemma snake_case_limpio_witness :
  List.length (snake_case (u "Evaluación de incertidumbre"))
  = List.length (u "Evaluación de incertidumbre")
  /\ forall c, In c (snake_case (u "Evaluación de incertidumbre")) ->
       c <> 32%N /\ c <> 45%N /\ ~ (65 <= c <= 90)%N.
Proof.
  apply (@snake_case_limpio (u "Evaluación de incertidumbre")).
  intros c Hc. vm_compute in Hc.
  repeat (destruct Hc as [<-|Hc]; [lia|]). destruct Hc.
Defined.

(** The ten configured names are all such names. *)
Example indicadores_en_alcance :
  forall n c, In n INDICADORES_A_EVALUAR -> In c n ->
    (c < 128)%N \/ (223 <= c <= 255)%N.
Proof.
  intros n c Hn.
  repeat (destruct Hn as [<-|Hn];
          [intros Hc; vm_compute in Hc;
           repeat (destruct Hc as [<-|Hc]; [lia|]); destruct Hc|]).
  destruct Hn.
Qed.

(** ** Marks and scores *)

Lemma lower_es_x (s : str) :
  lower s = [120%N] <-> s = [120%N] \/ s = [88%N].
Proof.
  unfold lower. split.
  - destruct s as [|c [|d t]]; cbn [map]; try discriminate.
    intros H. injection H as H. unfold lower_cp in H.
    destruct ((65 <=? c) && (c <=? 90))%N.
    + right. f_equal. lia.
    + left. now f_equal.
  - intros [->| ->]; reflexivity.
Qed.

(** X2. A blank cell is never a rating mark, and a text cell is one
    exactly when, with the surrounding white space removed, it is the
    single letter x or X. *)
Theorem es_x_caracterizacion (s : str) :
  es_x NaN = false
  /\ (es_x (Texto s) = true <-> strip s = u "x" \/ strip s = u "X").
Proof.
  split; [reflexivity|].
  unfold es_x. cbn [str_de]. rewrite eqb_eq.
  change (u "x") with [120%N]. change (u "X") with [88%N].
  apply lower_es_x.
Qed.

(** The score computed for a name is one of the four weights. *)
Lemma puntuacion_valores (df : DataFrame) (n : str) :
  In (puntuacion df n) [0; 4 # 10; 8 # 10; 1].
Proof.
  assert (Hf : forall i, In (puntuacion_fila df i) [0; 4 # 10; 8 # 10; 1]).
  { intros i. unfold puntuacion_fila.
    destruct (marca_en df i 4); [now left|].
    destruct (marca_en df i 5); [right; now left|].
    destruct (marca_en df i 6); [right; right; now left|].
    destruct (marca_en df i 7); [right; right; right; now left|].
    now left. }
  unfold puntuacion. destruct (coincidencias df n); [now left | apply Hf].
Qed.

Lemma puntuacion_cotas (df : DataFrame) (n : str) :
  0 <= puntuacion df n /\ puntuacion df n <= 1.
Proof.
  pose proof (puntuacion_valores df n) as H. cbn [In] in H.
  destruct H as [<-|[<-|[<-|[<-|[]]]]]; split; discriminate.
Qed.

(** X3. In every record the routine yields, the entry of each of the
    ten indicators is one of 0, 0.4, 0.8 and 1. *)
Theorem puntuaciones_del_registro
    rc rx (file_bytes : list N) (file_name : str) avisos r n :
  procesar_evaluacion_empresa rc rx file_bytes file_name = (avisos, Some r) ->
  In n INDICADORES_A_EVALUAR ->
  exists q,
    numero r (snake_case n) = Some q /\ In q [0; 4 # 10; 8 # 10; 1].
Proof.
  intros H Hn. apply procesar_Some in H.
  destruct H as (df & _ & _ & _ & -> & _).
  exists (puntuacion df n). split.
  - now apply registro_indicador.
  - apply puntuacion_valores.
Qed.

Lemma puntuaciones_del_registro_witness :
  exists q,
    numero (registro hoja_ejemplo archivo_ejemplo)
           (snake_case (u "Alcance 1")) = Some q
    /\ In q [0; 4 # 10; 8 # 10; 1].
Proof.
  apply (@puntuaciones_del_registro
           lector_roto (lector_fijo hoja_ejemplo) [] archivo_ejemplo
           [st_info (Procesando archivo_ejemplo)]
           (registro hoja_ejemplo archivo_ejemplo) (u "Alcance 1")).
  - vm_compute. reflexivity.
  - vm_compute. tauto.
Defined.

Lemma suma_cotas (l : list Q) :
  (forall q, In q l -> 0 <= q /\ q <= 1) ->
  forall a, a <= fold_left Qplus l a
            /\ fold_left Qplus l a <= a + inject_Z (Z.of_nat (List.length l)).
Proof.
  induction l as [|q t IH]; intros Hl a.
  - cbn [fold_left List.length]. split; [apply Qle_refl|].
    cbn. rewrite Qplus_0_r. apply Qle_refl.
  - cbn [fold_left]. destruct (Hl q (or_introl eq_refl)) as [H0 H1].
    destruct (IH (fun x Hx => Hl x (or_intror Hx)) (a + q)) as [IH1 IH2].
    split.
    + apply Qle_trans with (a + q); trivial.
      rewrite <- (Qplus_0_r a) at 1. apply Qplus_le_r. exact H0.
    + eapply Qle_trans; [exact IH2|].
      replace (Z.of_nat (List.length (q :: t)))
        with (1 + Z.of_nat (List.length t))%Z by (cbn [List.length]; lia).
      rewrite inject_Z_plus, <- Qplus_assoc, Qplus_assoc.
      rewrite <- (Qplus_assoc a). apply Qplus_le_r.
      apply Qplus_le_l. exact H1.
Qed.

(** X4. The total of every record the routine yields lies between 0 and
    1. *)
Theorem cix_total_en_rango
    rc rx (file_bytes : list N) (file_name : str) avisos r :
  procesar_evaluacion_empresa rc rx file_bytes file_name = (avisos, Some r) ->
  exists q, numero r (u "cix_total") = Some q /\ 0 <= q /\ q <= 1.
Proof.
  intros H. apply procesar_Some in H.
  destruct H as (df & _ & _ & _ & -> & _).
  eexists. split; [apply registro_cix_total|].
  set (l := map (puntuacion df) INDICADORES_A_EVALUAR).
  assert (Hl : forall q, In q l -> 0 <= q /\ q <= 1).
  { intros q Hq. apply in_map_iff in Hq. destruct Hq as (n & <- & _).
    apply puntuacion_cotas. }
  destruct (suma_cotas l Hl 0) as [H0 H1].
  assert (Hlen : List.length l = 10%nat) by (unfold l; now rewrite length_map).
  rewrite Hlen, Qplus_0_l in H1. unfold suma. split.
  - apply Qle_shift_div_l; [reflexivity|]. now rewrite Qmult_0_l.
  - apply Qle_shift_div_r; [reflexivity|]. now rewrite Qmult_1_l.
Qed.

Lemma cix_total_en_rango_witness :
  exists q,
    numero (registro hoja_ejemplo archivo_ejemplo) (u "cix_total") = Some q
    /\ 0 <= q /\ q <= 1.
Proof.
  apply (@cix_total_en_rango
           lector_roto (lector_fijo hoja_ejemplo) [] archivo_ejemplo
           [st_info (Procesando archivo_ejemplo)]
           (registro hoja_ejemplo archivo_ejemplo)).
  vm_compute. reflexivity.
Defined.

(** ** Record keys and display columns *)

(** X5. Of the fifteen columns the results table selects, a record the
    routine yields has six: the organisation, the period, the total and
    the three "alcance" scores.  The other seven indicator columns of the
    table are spelled differently from the record's keys (for instance
    "datos_actividad" against "datos_de_actividad"), so no record fills
    them. *)
Theorem columnas_mostradas_del_registro
    rc rx (file_bytes : list N) (file_name : str) avisos r :
  procesar_evaluacion_empresa rc rx file_bytes file_name = (avisos, Some r) ->
  filter (tiene_clave r) columnas_a_mostrar
  = [ u "organizacion_nombre"; u "periodo_informe"; u "cix_total";
      u "alcance_1"; u "alcance_2"; u "alcance_3" ]
  /\ filter (fun k => negb (contiene k columnas_a_mostrar))
            claves_indicadores
     = [ u "datos_de_actividad"; u "factores_de_emisión";
         u "categorías_excluidas"; u "consolidación"; u "auditoría";
         u "compromisos_de_reducción"; u "evaluación_de_incertidumbre" ].
Proof.
  intros H. apply procesar_Some in H.
  destruct H as (df & _ & _ & _ & -> & _).
  split; [|vm_compute; reflexivity].
  rewrite registro_forma.
  generalize (puntuacion df) as f.
  generalize (cix_total_de (puntuaciones_de df)) as cix.
  generalize (metadato df 5 (Texto (prefijo_archivo file_name))) as org.
  generalize (metadato df 6 (Texto (u "Desconocido"))) as per.
  generalize (metadato df 7 (Texto (u "N/A"))) as enl.
  intros enl per org cix f. vm_compute. reflexivity.
Qed.

Lemma columnas_mostradas_del_registro_witness :
  filter (tiene_clave (registro hoja_ejemplo archivo_ejemplo))
         columnas_a_mostrar
  = [ u "organizacion_nombre"; u "periodo_informe"; u "cix_total";
      u "alcance_1"; u "alcance_2"; u "alcance_3" ]
  /\ filter (fun k => negb (contiene k columnas_a_mostrar))
            claves_indicadores
     = [ u "datos_de_actividad"; u "factores_de_emisión";
         u "categorías_excluidas"; u "consolidación"; u "auditoría";
         u "compromisos_de_reducción"; u "evaluación_de_incertidumbre" ].
Proof.
  apply (@columnas_mostradas_del_registro
           lector_roto (lector_fijo hoja_ejemplo) [] archivo_ejemplo
           [st_info (Procesando archivo_ejemplo)]
           (registro hoja_ejemplo archivo_ejemplo)).
  vm_compute. reflexivity.
Defined.

(** ** The organisation taken from the file name *)

Lemma replace_from_sin_inicio (p : N) (old' new a resto : str) :
  ~ In p a ->
  replace_from 0 (p :: old') new (a ++ resto)
  = a ++ replace_from 0 (p :: old') new resto.
Proof.
  induction a as [|c t IH]; intros Hp; [reflexivity|].
  cbn [app replace_from startswith].
  destruct (N.eqb_spec c p) as [->|Hne].
  - exfalso. apply Hp. now left.
  - cbn [andb]. f_equal. apply IH. intros Hin. apply Hp. now right.
Qed.

Lemma split_sin_separador (sep : N) (s : str) :
  ~ In sep s -> split sep s = [s].
Proof.
  induction s as [|c t IH]; intros Hs; [reflexivity|].
  cbn [split]. destruct (N.eqb_spec c sep) as [->|Hne].
  - exfalso. apply Hs. now left.
  - rewrite IH; [reflexivity|]. intros Hin. apply Hs. now right.
Qed.

(** X6. The extension is taken off the fallback organisation only when
    it is written in lower case: for a base name without "." and "-",
    the names base.xlsx and base.csv give the organisation base, while
    base.XLSX, which is accepted as a spreadsheet just the same, gives
    the organisation base.XLSX. *)
Theorem nombre_desde_archivo_extension (base : str) :
  ~ In 46%N base -> ~ In 45%N base ->
  nombre_desde_archivo (base ++ u ".xlsx") = Ok (Texto base)
  /\ nombre_desde_archivo (base ++ u ".csv") = Ok (Texto base)
  /\ termina_en (base ++ u ".XLSX") (u ".xlsx")
  /\ nombre_desde_archivo (base ++ u ".XLSX")
     = Ok (Texto (base ++ u ".XLSX")).
Proof.
  intros Hpunto Hguion.
  assert (Hsplit : forall ext, ~ In 45%N ext ->
            hd [] (split 45 (base ++ ext)) = base ++ ext).
  { intros ext Hext. rewrite split_sin_separador; [reflexivity|].
    intros Hin. apply in_app_or in Hin. tauto. }
  assert (Hrep : forall ext,
            replace (replace (base ++ ext) (u ".xlsx") []) (u ".csv") []
            = base ++ replace (replace ext (u ".xlsx") []) (u ".csv") []).
  { intros ext. unfold replace.
    change (u ".xlsx") with (46%N :: u "xlsx").
    change (u ".csv") with (46%N :: u "csv").
    now rewrite !replace_from_sin_inicio. }
  rewrite !nombre_desde_archivo_ok. unfold prefijo_archivo. repeat split.
  - rewrite Hsplit, Hrep; [|vm_compute; intuition discriminate].
    change (replace (replace (u ".xlsx") (u ".xlsx") []) (u ".csv") [])
      with (@nil N).
    now rewrite app_nil_r.
  - rewrite Hsplit, Hrep; [|vm_compute; intuition discriminate].
    change (replace (replace (u ".csv") (u ".xlsx") []) (u ".csv") [])
      with (@nil N).
    now rewrite app_nil_r.
  - exists base, (u ".XLSX"). split; reflexivity.
  - rewrite Hsplit, Hrep; [|vm_compute; intuition discriminate].
    reflexivity.
Qed.

Lemma nombre_desde_archivo_extension_witness :
  nombre_desde_archivo (u "Acme" ++ u ".xlsx") = Ok (Texto (u "Acme"))
  /\ nombre_desde_archivo (u "Acme" ++ u ".csv") = Ok (Texto (u "Acme"))
  /\ termina_en (u "Acme" ++ u ".XLSX") (u ".xlsx")
  /\ nombre_desde_archivo (u "Acme" ++ u ".XLSX")
     = Ok (Texto (u "Acme" ++ u ".XLSX")).
Proof.
  apply (@nombre_desde_archivo_extension (u "Acme"));
    vm_compute; intuition discriminate.
Defined.

(** ** From a listed row back to its identifier and file name *)

Lemma split_tras_separador (sep : N) (b : str) : forall a,
  exists piezas, split sep (a ++ sep :: b) = piezas ++ split sep b
                 /\ piezas <> [].
Proof.
  induction a as [|c a IH]; cbn [app split].
  - rewrite N.eqb_refl. exists [[]]. split; [reflexivity | discriminate].
  - destruct IH as (piezas & Hp & Hne).
    destruct (c =? sep)%N.
    + exists ([] :: piezas). rewrite Hp. split; [reflexivity | discriminate].
    + rewrite Hp. destruct piezas as [|w ws]; [congruence|].
      exists ((c :: w) :: ws). split; [reflexivity | discriminate].
Qed.

Lemma ultimo_split (sep : N) (a b : str) :
  ~ In sep b -> ultimo (split sep (a ++ sep :: b)) = Ok b.
Proof.
  intros Hb. destruct (split_tras_separador sep b a) as (piezas & -> & _).
  rewrite (@split_sin_separador sep b Hb). unfold ultimo.
  now rewrite rev_app_distr.
Qed.

Lemma ultimo_split_sin (sep : N) (s : str) :
  exists p, ultimo (split sep s) = Ok p /\ ~ In sep p.
Proof.
  induction s as [|c t IH].
  - exists []. split; [reflexivity | tauto].
  - destruct IH as (p & Hp & Hin). cbn [split].
    destruct (N.eqb_spec c sep) as [->|Hne].
    + exists p. split; trivial. unfold ultimo in *. cbn [rev].
      destruct (rev (split sep t)) as [|x xs]; [discriminate|].
      exact Hp.
    + unfold ultimo in *.
      destruct (split sep t) as [|w ws] eqn:E; [discriminate|].
      cbn [rev] in *.
      destruct ws as [|w' ws'].
      * cbn in Hp. injection Hp as <-. exists (c :: w).
        split; [reflexivity|]. intros [H|H]; [congruence | tauto].
      * exists p. split; trivial. cbn [rev] in *.
        destruct (rev ws' ++ [w']) as [|x xs] eqn:E';
          [destruct (rev ws'); discriminate|].
        exact Hp.
Qed.

(** X7. The stored file name is recovered from the public address the
    upload builds exactly when the name holds no "/": then the last piece
    of the address is the name; a name that holds a "/" comes back as
    another, shorter text without "/". *)
Theorem file_name_de_public_url (SUPABASE_URL file_name : str) :
  (~ In 47%N file_name ->
   file_name_de (Texto (public_url_de SUPABASE_URL file_name))
   = Ok file_name)
  /\ (In 47%N file_name ->
      exists otro,
        file_name_de (Texto (public_url_de SUPABASE_URL file_name))
        = Ok otro
        /\ otro <> file_name /\ ~ In 47%N otro).
Proof.
  unfold file_name_de, public_url_de. split.
  - intros Hn.
    change (u "/") with [47%N]. rewrite !app_assoc.
    rewrite <- app_assoc. cbn [app].
    now apply ultimo_split.
  - intros Hin.
    destruct (ultimo_split_sin 47
                (SUPABASE_URL ++ u "/storage/v1/object/public/"
                 ++ SUPABASE_BUCKET_NAME ++ u "/" ++ file_name))
      as (p & Hp & Hnp).
    exists p. repeat split; trivial. intros ->. contradiction.
Qed.

Lemma file_name_de_public_url_witness :
  file_name_de
    (Texto (public_url_de (u "https://x.supabase.co") archivo_ejemplo))
  = Ok archivo_ejemplo.
Proof.
  apply (proj1 (@file_name_de_public_url
                  (u "https://x.supabase.co") archivo_ejemplo)).
  vm_compute. intuition discriminate.
Defined.

Lemma split_from_sin_inicio (p : N) (sep' resto : str) : forall a pieza,
  ~ In p a ->
  split_from 0 (p :: sep') pieza (a ++ resto)
  = split_from 0 (p :: sep') (rev a ++ pieza) resto.
Proof.
  induction a as [|c t IH]; intros pieza Hp; [reflexivity|].
  cbn [app split_from startswith rev].
  destruct (N.eqb_spec c p) as [->|Hne].
  - exfalso. apply Hp. now left.
  - cbn [andb]. rewrite IH by (intros Hin; apply Hp; now right).
    now rewrite <- app_assoc.
Qed.

Lemma split_from_salto (sep pieza b : str) : forall x,
  split_from (List.length x) sep pieza (x ++ b) = split_from 0 sep pieza b.
Proof.
  induction x as [|c t IH]; [reflexivity|].
  cbn [List.length app split_from]. exact IH.
Qed.

Lemma split_str_dos (p : N) (sep' a b : str) :
  ~ In p a -> ~ In p b ->
  split_str (a ++ (p :: sep') ++ b) (p :: sep') = [a; b].
Proof.
  intros Ha Hb. unfold split_str.
  rewrite (@split_from_sin_inicio p sep' ((p :: sep') ++ b) a [] Ha).
  rewrite app_nil_r. cbn [app split_from].
  assert (Hs : startswith (p :: sep' ++ b) (p :: sep') = true).
  { apply startswith_spec. now exists b. }
  rewrite Hs, rev_involutive.
  cbn [List.length]. rewrite Nat.sub_succ, Nat.sub_0_r.
  rewrite split_from_salto.
  rewrite <- (app_nil_r b) at 1.
  rewrite (@split_from_sin_inicio p sep' [] b [] Hb).
  cbn [split_from]. now rewrite app_nil_r, rev_involutive.
Qed.

Lemma opcion_de_forma (row : fila_listado) :
  opcion_de row
  = (str_de (organizacion_nombre row) ++ u " - "
     ++ str_de (periodo_informe row) ++ [32%N])
    ++ u "(ID: " ++ (str_de (id row) ++ [41%N]).
Proof.
  unfold opcion_de.
  change (u " (ID: ") with ([32%N] ++ u "(ID: ").
  change (u ")") with [41%N].
  now rewrite <- !app_assoc.
Qed.

(** X8. The identifier is read back from the option text of a listed row
    whenever the organisation, the period and the identifier, as
    printed, hold no "(". *)
Theorem eval_id_de_opcion (row : fila_listado) :
  ~ In 40%N (str_de (organizacion_nombre row)) ->
  ~ In 40%N (str_de (periodo_informe row)) ->
  ~ In 40%N (str_de (id row)) ->
  eval_id_de (opcion_de row) = Ok (str_de (id row)).
Proof.
  intros Ho Hp Hi. unfold eval_id_de. rewrite opcion_de_forma.
  change (u "(ID: ") with (40%N :: u "ID: ").
  rewrite split_str_dos.
  - cbn [elemento nth_error bind ret]. unfold sin_ultimo.
    now rewrite removelast_last.
  - intros Hin. apply in_app_or in Hin. destruct Hin as [H|H]; [tauto|].
    apply in_app_or in H. destruct H as [H|H].
    + vm_compute in H. intuition discriminate.
    + apply in_app_or in H. destruct H as [H|[H|[]]]; [tauto | discriminate].
  - intros Hin. apply in_app_or in Hin.
    destruct Hin as [H|[H|[]]]; [tauto | discriminate].
Qed.

Lemma eval_id_de_opcion_witness :
  eval_id_de (opcion_de (nth 0 listado_ejemplo
                           {| id := NaN; organizacion_nombre := NaN;
                              periodo_informe := NaN;
                              url_archivo_supabase := NaN |}))
  = Ok (u "7f3c").
Proof.
  apply (@eval_id_de_opcion
           (nth 0 listado_ejemplo
                {| id := NaN; organizacion_nombre := NaN;
                   periodo_informe := NaN; url_archivo_supabase := NaN |}));
    vm_compute; intuition discriminate.
Defined.

(** An organisation that itself holds "(ID: " breaks the reading: the
    second row of the sample listing gives back a text that is not its
    identifier. *)
Example ejemplo_opcion_ambigua :
  opcion_de (nth 1 listado_ejemplo
               {| id := NaN; organizacion_nombre := NaN;
                  periodo_informe := NaN; url_archivo_supabase := NaN |})
  = u "Beta (ID: 7) - 2023 (ID: 91ab)"
  /\ eval_id_de (u "Beta (ID: 7) - 2023 (ID: 91ab)") = Ok (u "7) - 2023").
Proof. split; vm_compute; reflexivity. Qed.

Lemma opcion_no_es_selecciona (row : fila_listado) :
  eqb (opcion_de row) SELECCIONA = false.
Proof.
  apply eqb_neq. rewrite opcion_de_forma. intros H.
  change SELECCIONA
    with (u "--- Selecciona una evaluación --" ++ [45%N]) in H.
  rewrite !app_assoc in H. apply app_inj_tail in H.
  destruct H as [_ H]. discriminate.
Qed.

Lemma filter_primera (f : fila_listado -> bool) (row : fila_listado) :
  forall antes despues,
    (forall r, In r antes -> f r = false) -> f row = true ->
    filter f (antes ++ row :: despues) = row :: filter f despues.
Proof.
  induction antes as [|r t IH]; intros despues Ha Hr; cbn [app filter].
  - now rewrite Hr.
  - rewrite (Ha r (or_introl eq_refl)). apply IH; trivial.
    intros x Hx. apply Ha. now right.
Qed.

(** X9. For a listed row whose identifier is a text, that is the first of
    the listing with that identifier, whose organisation, period and
    identifier hold no "(", and whose address is the public address of a
    file name without "/", selecting the row's option makes the deletion
    branch pass exactly the row's identifier and that file name to the
    deletion routine. *)
Theorem preparar_eliminacion_de_fila
    (SUPABASE_URL : str) (antes despues : list fila_listado)
    (row : fila_listado) (i file_name : str) :
  id row = Texto i ->
  (forall r, In r antes -> celda_igual (id r) i = false) ->
  ~ In 40%N (str_de (organizacion_nombre row)) ->
  ~ In 40%N (str_de (periodo_informe row)) ->
  ~ In 40%N i ->
  url_archivo_supabase row = Texto (public_url_de SUPABASE_URL file_name) ->
  ~ In 47%N file_name ->
  preparar_eliminacion (antes ++ row :: despues) (opcion_de row)
  = Ok (Some (i, file_name)).
Proof.
  intros Hid Hantes Ho Hp Hi Hurl Hn. unfold preparar_eliminacion.
  rewrite opcion_no_es_selecciona.
  assert (Hi' : ~ In 40%N (str_de (id row))) by now rewrite Hid.
  rewrite (@eval_id_de_opcion row Ho Hp Hi'). cbn [bind].
  rewrite Hid. cbn [str_de]. unfold url_de.
  rewrite (@filter_primera (fun r => celda_igual (id r) i) row
             antes despues Hantes).
  2:{ rewrite Hid. cbn [celda_igual]. apply eqb_refl. }
  cbn [primero bind ret]. rewrite Hurl.
  rewrite (proj1 (@file_name_de_public_url SUPABASE_URL file_name) Hn).
  reflexivity.
Qed.

Lemma preparar_eliminacion_de_fila_witness :
  preparar_eliminacion
    ([] ++ nth 0 listado_ejemplo
                 {| id := NaN; organizacion_nombre := NaN;
                    periodo_informe := NaN; url_archivo_supabase := NaN |}
        :: tl listado_ejemplo)
    (opcion_de (nth 0 listado_ejemplo
                  {| id := NaN; organizacion_nombre := NaN;
                     periodo_informe := NaN; url_archivo_supabase := NaN |}))
  = Ok (Some (u "7f3c", archivo_ejemplo)).
Proof.
  apply (@preparar_eliminacion_de_fila (u "https://x.supabase.co") []
           (tl listado_ejemplo)
           (nth 0 listado_ejemplo
                {| id := NaN; organizacion_nombre := NaN;
                   periodo_informe := NaN; url_archivo_supabase := NaN |})
           (u "7f3c") archivo_ejemplo).
  - reflexivity.
  - intros r [].
  - vm_compute. intuition discriminate.
  - vm_compute. intuition discriminate.
  - vm_compute. intuition discriminate.
  - vm_compute. reflexivity.
  - vm_compute. intuition discriminate.
Defined.

(** ** Saving a record *)

Lemma get_set_misma {V} (d : Dict.dict V) (k : str) (v : V) :
  Dict.get (Dict.set d k v) k = Some v.
Proof.
  induction d as [|[k' v'] t IH]; cbn [Dict.set Dict.get].
  - now rewrite eqb_refl.
  - destruct (eqb k' k) eqn:E; cbn [Dict.get]; rewrite E; trivial.
Qed.

Lemma get_set_otra {V} (d : Dict.dict V) (k k' : str) (v : V) :
  k <> k' -> Dict.get (Dict.set d k v) k' = Dict.get d k'.
Proof.
  intros Hne. induction d as [|[k0 v0] t IH]; cbn [Dict.set Dict.get].
  - assert (E : eqb k k' = false) by now apply eqb_neq.
    now rewrite E.
  - destruct (eqb k0 k) eqn:E; cbn [Dict.get]; [|now rewrite IH].
    apply eqb_eq in E. subst k0.
    assert (E' : eqb k k' = false) by now apply eqb_neq.
    now rewrite E'.
Qed.

Lemma keys_set_nueva {V} (d : Dict.dict V) (k : str) (v : V) :
  Dict.get d k = None -> Dict.keys (Dict.set d k v) = Dict.keys d ++ [k].
Proof.
  unfold Dict.keys.
  induction d as [|[k0 v0] t IH]; cbn [Dict.set Dict.get map app fst];
    [reflexivity|].
  destruct (eqb k0 k); [discriminate|].
  intros H. cbn [map fst]. now rewrite IH.
Qed.

Lemma registro_sin_url (df : DataFrame) (file_name : str) :
  Dict.get (registro df file_name) (u "url_archivo_supabase") = None.
Proof.
  rewrite registro_forma.
  generalize (puntuacion df) as f.
  generalize (cix_total_de (puntuaciones_de df)) as cix.
  generalize (metadato df 5 (Texto (prefijo_archivo file_name))) as org.
  generalize (metadato df 6 (Texto (u "Desconocido"))) as per.
  generalize (metadato df 7 (Texto (u "N/A"))) as enl.
  intros enl per org cix f. vm_compute. reflexivity.
Qed.

Lemma registro_organizacion (df : DataFrame) (file_name : str) :
  Dict.get (registro df file_name) (u "organizacion_nombre")
  = Some (VCelda (metadato df 5 (Texto (prefijo_archivo file_name)))).
Proof. rewrite registro_forma. reflexivity. Qed.

(** X10. Saving a record the extraction yielded: the row handed to the
    insert is the record with the address added as a fifteenth, last
    key, every extracted entry unchanged; the backend is left as the
    insert left it; and when the insert answers with data the notice is
    the success notice with the organisation of the record - the lookup
    of the organisation cannot fail. *)
Theorem guardar_registro_extraido
    (estado : Type)
    (table_insert :
       estado -> str -> Dict.dict valor -> estado * resultado respuesta)
    rc rx (file_bytes : list N) (file_name : str) avisos r
    (file_url_supabase : str) (s : estado) :
  procesar_evaluacion_empresa rc rx file_bytes file_name = (avisos, Some r) ->
  let fila :=
    Dict.set r (u "url_archivo_supabase")
             (VCelda (Texto file_url_supabase)) in
  let final := guardar_evaluacion_en_db table_insert r file_url_supabase s in
  snd final = fila
  /\ fst (fst final) = fst (table_insert s (u "evaluaciones") fila)
  /\ Dict.keys fila
     = claves_metadatos ++ claves_indicadores ++ [u "url_archivo_supabase"]
  /\ Dict.get fila (u "url_archivo_supabase")
     = Some (VCelda (Texto file_url_supabase))
  /\ (forall k, k <> u "url_archivo_supabase" ->
        Dict.get fila k = Dict.get r k)
  /\ (forall response,
        snd (table_insert s (u "evaluaciones") fila) = Ok response ->
        data response <> [] ->
        exists org,
          Dict.get r (u "organizacion_nombre") = Some org
          /\ snd (fst final) = [gw_success (EvaluacionGuardada org)]).
Proof.
  intros H fila final. apply procesar_Some in H.
  destruct H as (df & _ & _ & _ & -> & _).
  assert (Horg : Dict.item fila (u "organizacion_nombre")
                 = Ok (VCelda (metadato df 5
                                 (Texto (prefijo_archivo file_name))))).
  { unfold Dict.item, fila. rewrite get_set_otra by discriminate.
    now rewrite registro_organizacion. }
  subst final. unfold guardar_evaluacion_en_db. fold fila.
  destruct (table_insert s (u "evaluaciones") fila) as [s1 [resp|e]] eqn:E;
    cbn [fst snd].
  - split.
    { destruct (data resp); [destruct (error resp)|rewrite Horg];
        reflexivity. }
    split.
    { destruct (data resp); [destruct (error resp)|rewrite Horg];
        reflexivity. }
    split.
    { unfold fila. rewrite keys_set_nueva by apply registro_sin_url.
      rewrite registro_claves. now rewrite <- app_assoc. }
    split; [apply get_set_misma|].
    split; [intros k Hk; apply get_set_otra; congruence|].
    intros response Hr Hd. injection Hr as <-.
    eexists. split; [apply registro_organizacion|].
    destruct (data resp); [congruence|]. now rewrite Horg.
  - split; [reflexivity|]. split; [reflexivity|].
    split.
    { unfold fila. rewrite keys_set_nueva by apply registro_sin_url.
      rewrite registro_claves. now rewrite <- app_assoc. }
    split; [apply get_set_misma|].
    split; [intros k Hk; apply get_set_otra; congruence|].
    discriminate.
Qed.

Lemma guardar_registro_extraido_witness :
  let r := registro hoja_ejemplo archivo_ejemplo in
  let fila :=
    Dict.set r (u "url_archivo_supabase") (VCelda (Texto (u "https://x"))) in
  let final :=
    guardar_evaluacion_en_db nube_insert_ok r (u "https://x")
      (nube_ejemplo true) in
  snd final = fila
  /\ fst (fst final) = fst (nube_insert_ok (nube_ejemplo true)
                              (u "evaluaciones") fila)
  /\ Dict.keys fila
     = claves_metadatos ++ claves_indicadores ++ [u "url_archivo_supabase"]
  /\ Dict.get fila (u "url_archivo_supabase")
     = Some (VCelda (Texto (u "https://x")))
  /\ (forall k, k <> u "url_archivo_supabase" ->
        Dict.get fila k = Dict.get r k)
  /\ (forall response,
        snd (nube_insert_ok (nube_ejemplo true) (u "evaluaciones") fila)
        = Ok response ->
        data response <> [] ->
        exists org,
          Dict.get r (u "organizacion_nombre") = Some org
          /\ snd (fst final) = [gw_success (EvaluacionGuardada org)]).
Proof.
  apply (@guardar_registro_extraido nube nube_insert_ok
           lector_roto (lector_fijo hoja_ejemplo) [] archivo_ejemplo
           [st_info (Procesando archivo_ejemplo)]
           (registro hoja_ejemplo archivo_ejemplo)
           (u "https://x") (nube_ejemplo true)).
  vm_compute. reflexivity.
Defined.

(** X11. A dictionary without the key "organizacion_nombre" is saved all
    the same when the insert answers with data, but the routine then
    fails on the success notice and shows the missing key as an error;
    what the insert did stays done. *)
Theorem guardar_sin_organizacion
    (estado : Type)
    (table_insert :
       estado -> str -> Dict.dict valor -> estado * resultado respuesta)
    (eval_data : Dict.dict valor) (file_url_supabase : str)
    (s s1 : estado) (response : respuesta) :
  Dict.get eval_data (u "organizacion_nombre") = None ->
  let fila :=
    Dict.set eval_data (u "url_archivo_supabase")
             (VCelda (Texto file_url_supabase)) in
  table_insert s (u "evaluaciones") fila = (s1, Ok response) ->
  data response <> [] ->
  guardar_evaluacion_en_db table_insert eval_data file_url_supabase s
  = (s1,
     [gw_error (ExcepcionAlGuardar (KeyError (u "organizacion_nombre")))],
     fila).
Proof.
  intros Hk fila Hi Hd. unfold guardar_evaluacion_en_db. fold fila.
  rewrite Hi. destruct (data response); [congruence|].
  unfold Dict.item, fila. rewrite get_set_otra by discriminate.
  now rewrite Hk.
Qed.

Lemma guardar_sin_organizacion_witness :
  guardar_evaluacion_en_db nube_insert_ok [] (u "https://x")
    (nube_ejemplo true)
  = (fst (nube_insert_ok (nube_ejemplo true) (u "evaluaciones") []),
     [gw_error (ExcepcionAlGuardar (KeyError (u "organizacion_nombre")))],
     Dict.set [] (u "url_archivo_supabase") (VCelda (Texto (u "https://x")))).
Proof.
  apply (@guardar_sin_organizacion nube nube_insert_ok []
           (u "https://x") (nube_ejemplo true)
           (fst (nube_insert_ok (nube_ejemplo true) (u "evaluaciones") []))
           {| data := [u "nuevo"]; error := None |}).
  - reflexivity.
  - reflexivity.
  - discriminate.
Defined.

(** ** Uploading a file *)

(** X12. The upload routine gives an address only when the file has a
    name and the storage call answered with data; the address is then
    the public address of that name, shown with a success notice, and
    the name is read back from it when it holds no "/".  It gives
    nothing and shows nothing at all when the storage call answered with
    neither data nor error, and in that case only.  A file without a
    name leaves the backend untouched. *)
Theorem subir_archivo_resultado
    (SUPABASE_URL : str) (estado : Type)
    (storage_upload :
       estado -> str -> str -> list N -> str ->
       estado * resultado (option respuesta))
    (uploaded_file : UploadedFile) (s : estado) :
  let final :=
    subir_archivo_a_supabase SUPABASE_URL storage_upload uploaded_file s in
  (forall url,
     snd final = Some url ->
     exists file_name res,
       name uploaded_file = Some file_name
       /\ storage_upload s SUPABASE_BUCKET_NAME file_name
            (getvalue uploaded_file) (type uploaded_file)
          = (fst (fst final), Ok (Some res))
       /\ data res <> []
       /\ url = public_url_de SUPABASE_URL file_name
       /\ snd (fst final) = [gw_success (ArchivoSubido file_name)]
       /\ (~ In 47%N file_name -> file_name_de (Texto url) = Ok file_name))
  /\ (snd final = None -> snd (fst final) = [] ->
      exists file_name res,
        name uploaded_file = Some file_name
        /\ storage_upload s SUPABASE_BUCKET_NAME file_name
             (getvalue uploaded_file) (type uploaded_file)
           = (fst (fst final), Ok (Some res))
        /\ data res = [] /\ error res = None)
  /\ (name uploaded_file = None ->
      final = (s, [gw_error NoSeDetectoNombre], None))
  /\ (forall file_name res s1,
        name uploaded_file = Some file_name ->
        storage_upload s SUPABASE_BUCKET_NAME file_name
          (getvalue uploaded_file) (type uploaded_file)
        = (s1, Ok (Some res)) ->
        data res = [] -> error res = None ->
        final = (s1, [], None)).
Proof.
  intros final. subst final.
  assert (Hsilencio : forall file_name res s1,
            name uploaded_file = Some file_name ->
            storage_upload s SUPABASE_BUCKET_NAME file_name
              (getvalue uploaded_file) (type uploaded_file)
            = (s1, Ok (Some res)) ->
            data res = [] -> error res = None ->
            subir_archivo_a_supabase SUPABASE_URL storage_upload
              uploaded_file s = (s1, [], None)).
  { intros file_name res s1 Hn Hu Hd He.
    unfold subir_archivo_a_supabase. now rewrite Hn, Hu, Hd, He. }
  rewrite <- !and_assoc. split; [|exact Hsilencio]. rewrite !and_assoc.
  clear Hsilencio. unfold subir_archivo_a_supabase.
  destruct (name uploaded_file) as [file_name|].
  2:{ cbn [fst snd]. repeat split; discriminate. }
  destruct (storage_upload s SUPABASE_BUCKET_NAME file_name
              (getvalue uploaded_file) (type uploaded_file))
    as [s1 [[res|]|e]] eqn:Eu; cbn [fst snd];
    try (repeat split; discriminate).
  destruct (data res) as [|d ds] eqn:Ed.
  - destruct (error res) as [msg|] eqn:Ee; cbn [fst snd].
    + repeat split; discriminate.
    + split; [discriminate|]. split; [|discriminate].
      intros _ _. exists file_name, res. repeat split; trivial.
  - cbn [fst snd]. split; [|split; discriminate].
    intros url Hu. injection Hu as <-.
    exists file_name, res. split; [reflexivity|]. split; [exact Eu|].
    split; [rewrite Ed; discriminate|]. split; [reflexivity|].
    split; [reflexivity|].
    apply (proj1 (@file_name_de_public_url SUPABASE_URL file_name)).
Qed.

(** ** The upload branch of the main script *)

Lemma registro_no_vacio (df : DataFrame) (file_name : str) :
  no_vacio (registro df file_name) = true.
Proof. rewrite registro_forma. reflexivity. Qed.

Lemma public_url_no_vacio (SUPABASE_URL file_name : str) :
  no_vacio (public_url_de SUPABASE_URL file_name) = true.
Proof.
  unfold public_url_de.
  assert (H : u "/storage/v1/object/public/"
              = 47%N :: u "storage/v1/object/public/")
    by (vm_compute; reflexivity).
  rewrite H. destruct SUPABASE_URL; reflexivity.
Qed.

(** X13. When the extraction yields no record - the name has an
    unsupported suffix, the parser raises, or the sheet lacks the
    metadata cells - the upload branch makes no backend call: the
    backend is as before, [refresh_data] is not set and the last notice
    says that the file could not be processed. *)
Theorem subir_nueva_evaluacion_sin_registro
    (SUPABASE_URL : str) (estado : Type)
    (storage_upload :
       estado -> str -> str -> list N -> str ->
       estado * resultado (option respuesta))
    (table_insert :
       estado -> str -> Dict.dict valor -> estado * resultado respuesta)
    rc rx (uploaded_file : UploadedFile) (file_name : str) (s : estado) :
  name uploaded_file = Some file_name ->
  (lectura rc rx (getvalue uploaded_file) file_name = None
   \/ (exists e,
         lectura rc rx (getvalue uploaded_file) file_name = Some (Raise e))
   \/ (exists df,
         lectura rc rx (getvalue uploaded_file) file_name = Some (Ok df)
         /\ ((nrows df < 8)%nat \/ (ncols df < 2)%nat))) ->
  exists avisos,
    subir_nueva_evaluacion SUPABASE_URL storage_upload table_insert
      rc rx uploaded_file s
    = (s, avisos ++ [gw_error NoSePudoProcesar], false).
Proof.
  intros Hn Hl. unfold subir_nueva_evaluacion. rewrite Hn.
  rewrite procesar_casos.
  destruct Hl as [Hl|[[e Hl]|(df & Hl & Hd)]]; rewrite Hl.
  - eexists. reflexivity.
  - eexists. reflexivity.
  - assert (E : (8 <=? nrows df) && (2 <=? ncols df) = false).
    { destruct (Nat.leb_spec 8 (nrows df)), (Nat.leb_spec 2 (ncols df));
        cbn [andb]; trivial; lia. }
    rewrite E. eexists. reflexivity.
Qed.

Lemma subir_nueva_evaluacion_sin_registro_witness :
  exists avisos,
    subir_nueva_evaluacion (u "https://x.supabase.co") nube_upload
      nube_insert_ok (lector_fijo hoja_corta) (lector_fijo hoja_corta)
      archivo_subido_ejemplo (nube_ejemplo true)
    = (nube_ejemplo true, avisos ++ [gw_error NoSePudoProcesar], false).
Proof.
  apply (@subir_nueva_evaluacion_sin_registro
           (u "https://x.supabase.co") nube nube_upload nube_insert_ok
           (lector_fijo hoja_corta) (lector_fijo hoja_corta)
           archivo_subido_ejemplo archivo_ejemplo (nube_ejemplo true)).
  - reflexivity.
  - right. right. exists hoja_corta. split; [reflexivity|].
    left. vm_compute. lia.
Defined.

(** X14. Once a record was extracted and the storage call answered with
    data, the upload branch always ends with the notice that the
    operation is complete and sets [refresh_data], whatever the insert
    did - answer with data, answer with an error, or raise.  The insert
    receives the record with the public address of the file; the backend
    is left as the insert left it, and the uploaded file is not taken
    back when the insert fails. *)
Theorem subir_nueva_evaluacion_completada
    (SUPABASE_URL : str) (estado : Type)
    (storage_upload :
       estado -> str -> str -> list N -> str ->
       estado * resultado (option respuesta))
    (table_insert :
       estado -> str -> Dict.dict valor -> estado * resultado respuesta)
    rc rx (uploaded_file : UploadedFile) (file_name : str) (s s1 : estado)
    (df : DataFrame) (res : respuesta) :
  name uploaded_file = Some file_name ->
  lectura rc rx (getvalue uploaded_file) file_name = Some (Ok df) ->
  (8 <= nrows df)%nat -> (2 <= ncols df)%nat ->
  storage_upload s SUPABASE_BUCKET_NAME file_name
    (getvalue uploaded_file) (type uploaded_file) = (s1, Ok (Some res)) ->
  data res <> [] ->
  let fila :=
    Dict.set (registro df file_name) (u "url_archivo_supabase")
      (VCelda (Texto (public_url_de SUPABASE_URL file_name))) in
  exists avisos,
    subir_nueva_evaluacion SUPABASE_URL storage_upload table_insert
      rc rx uploaded_file s
    = (fst (table_insert s1 (u "evaluaciones") fila),
       avisos ++ [gw_success OperacionCompletada], true).
Proof.
  intros Hn Hl Hr Hc Hu Hd fila. unfold subir_nueva_evaluacion.
  rewrite Hn, (procesar_leido _ _ _ _ Hl Hr Hc).
  rewrite registro_no_vacio.
  unfold subir_archivo_a_supabase. rewrite Hn, Hu.
  destruct (data res) as [|d ds]; [congruence|].
  rewrite public_url_no_vacio.
  unfold guardar_evaluacion_en_db. fold fila.
  destruct (table_insert s1 (u "evaluaciones") fila) as [s2 [resp|e]];
    cbn [fst].
  - destruct (data resp).
    + destruct (error resp); eexists; rewrite !app_assoc; reflexivity.
    + destruct (Dict.item fila (u "organizacion_nombre"));
        eexists; rewrite !app_assoc; reflexivity.
  - eexists. rewrite !app_assoc. reflexivity.
Qed.

Lemma subir_nueva_evaluacion_completada_witness :
  exists avisos,
    subir_nueva_evaluacion (u "https://x.supabase.co") nube_upload
      nube_insert_rechaza lector_roto (lector_fijo hoja_ejemplo)
      archivo_subido_ejemplo (nube_ejemplo true)
    = (fst (nube_insert_rechaza
              (fst (nube_upload (nube_ejemplo true) SUPABASE_BUCKET_NAME
                      archivo_ejemplo [80; 75]%N
                      (u "application/vnd.ms-excel")))
              (u "evaluaciones")
              (Dict.set (registro hoja_ejemplo archivo_ejemplo)
                 (u "url_archivo_supabase")
                 (VCelda (Texto (public_url_de (u "https://x.supabase.co")
                                   archivo_ejemplo))))),
       avisos ++ [gw_success OperacionCompletada], true).
Proof.
  apply (@subir_nueva_evaluacion_completada
           (u "https://x.supabase.co") nube nube_upload nube_insert_rechaza
           lector_roto (lector_fijo hoja_ejemplo)
           archivo_subido_ejemplo archivo_ejemplo (nube_ejemplo true)
           (fst (nube_upload (nube_ejemplo true) SUPABASE_BUCKET_NAME
                   archivo_ejemplo [80; 75]%N
                   (u "application/vnd.ms-excel")))
           hoja_ejemplo
           {| data := [archivo_ejemplo]; error := None |}).
  - reflexivity.
  - reflexivity.
  - vm_compute. lia.
  - vm_compute. lia.
  - reflexivity.
  - discriminate.
Defined.

(** On the sample backend whose table rejects the row: the file stays in
    the bucket, no row is added, and the notices end with the insert
    error followed by the completion notice. *)
Example ejemplo_insert_rechazado :
  let final :=
    subir_nueva_evaluacion (u "https://x.supabase.co") nube_upload
      nube_insert_rechaza lector_roto (lector_fijo hoja_ejemplo)
      archivo_subido_ejemplo
      {| archivos := []; tabla := []; storage_en_linea := true |} in
  archivos (fst (fst final)) = [archivo_ejemplo]
  /\ tabla (fst (fst final)) = []
  /\ skipn 3 (snd (fst final))
     = [gw_error (ErrorAlGuardar (u "column not found"));
        gw_success OperacionCompletada]
  /\ snd final = true.
Proof. repeat split; vm_compute; reflexivity. Qed.

(** ** Listing the saved records *)



(** On an empty table the listing is empty and the notice is the error. *)
Example ejemplo_tabla_vacia :
  obtener_evaluaciones_de_db nube_select (nube_ejemplo true)
  = (nube_ejemplo true,
     [gw_error (ExcepcionAlObtener AttributeError)], []).
Proof. reflexivity. Qed.

(** X16. When a record was extracted but the upload routine gives no
    address, the upload branch inserts nothing, whatever the table would
    do: the backend is as the upload routine left it, [refresh_data] is
    not set and the last notice says that the file could not be
    uploaded. *)
Theorem subir_nueva_evaluacion_sin_url
    (SUPABASE_URL : str) (estado : Type)
    (storage_upload :
       estado -> str -> str -> list N -> str ->
       estado * resultado (option respuesta))
    (table_insert :
       estado -> str -> Dict.dict valor -> estado * resultado respuesta)
    rc rx (uploaded_file : UploadedFile) (file_name : str) (s : estado)
    (df : DataFrame) :
  name uploaded_file = Some file_name ->
  lectura rc rx (getvalue uploaded_file) file_name = Some (Ok df) ->
  (8 <= nrows df)%nat -> (2 <= ncols df)%nat ->
  snd (subir_archivo_a_supabase SUPABASE_URL storage_upload uploaded_file s)
  = None ->
  exists avisos,
    subir_nueva_evaluacion SUPABASE_URL storage_upload table_insert
      rc rx uploaded_file s
    = (fst (fst (subir_archivo_a_supabase SUPABASE_URL storage_upload
                   uploaded_file s)),
       avisos ++ [gw_error NoSePudoSubir], false).
Proof.
  intros Hn Hl Hr Hc Hs. unfold subir_nueva_evaluacion.
  rewrite Hn, (procesar_leido _ _ _ _ Hl Hr Hc), registro_no_vacio.
  destruct (subir_archivo_a_supabase SUPABASE_URL storage_upload
              uploaded_file s) as [[s1 avisos1] url].
  cbn [fst snd] in *. subst url.
  eexists. rewrite !app_assoc. reflexivity.
Qed.

Lemma subir_nueva_evaluacion_sin_url_witness :
  exists avisos,
    subir_nueva_evaluacion (u "https://x.supabase.co") nube_upload
      nube_insert_ok lector_roto (lector_fijo hoja_ejemplo)
      archivo_subido_ejemplo (nube_ejemplo false)
    = (fst (fst (subir_archivo_a_supabase (u "https://x.supabase.co")
                   nube_upload archivo_subido_ejemplo (nube_ejemplo false))),
       avisos ++ [gw_error NoSePudoSubir], false).
Proof.
  apply (@subir_nueva_evaluacion_sin_url
           (u "https://x.supabase.co") nube nube_upload nube_insert_ok
           lector_roto (lector_fijo hoja_ejemplo)
           archivo_subido_ejemplo archivo_ejemplo (nube_ejemplo false)
           hoja_ejemplo).
  - reflexivity.
  - reflexivity.
  - vm_compute. lia.
  - vm_compute. lia.
  - reflexivity.
Defined.

(** ** Identifiers that are not texts *)

(** X17. The deletion branch finds the row of an option by comparing the
    identifier column with the text read from the option, and only a
    text equals a text: in a listing whose identifiers are not texts
    (numbers, for instance) no option other than the empty choice can be
    prepared for deletion - the lookup of the row is out of bounds. *)
Theorem preparar_eliminacion_id_no_texto
    (df_evaluaciones : list fila_listado) (opcion eval_id : str) :
  (forall row t, In row df_evaluaciones -> id row <> Texto t) ->
  eqb opcion SELECCIONA = false ->
  eval_id_de opcion = Ok eval_id ->
  preparar_eliminacion df_evaluaciones opcion = Raise IndexError.
Proof.
  intros Hid Hsel Hev. unfold preparar_eliminacion.
  rewrite Hsel, Hev. cbn [bind]. unfold url_de.
  assert (Hf : filter (fun row => celda_igual (id row) eval_id)
                      df_evaluaciones = []).
  { induction df_evaluaciones as [|row t IH]; [reflexivity|].
    cbn [filter].
    assert (E : celda_igual (id row) eval_id = false).
    { pose proof (Hid row) as Hrow. destruct (id row) as [|x|x];
        try reflexivity.
      exfalso. apply (Hrow x); [now left | reflexivity]. }
    rewrite E. apply IH. intros r x Hr. apply Hid. now right. }
  rewrite Hf. reflexivity.
Qed.

Lemma preparar_eliminacion_id_no_texto_witness :
  preparar_eliminacion
    [ {| id := Escalar (u "12"); organizacion_nombre := Texto (u "Acme");
         periodo_informe := Escalar (u "2024");
         url_archivo_supabase := Texto (u "https://x/acme.csv") |} ]
    (u "Acme - 2024 (ID: 12)")
  = Raise IndexError.
Proof.
  apply (@preparar_eliminacion_id_no_texto
           [ {| id := Escalar (u "12");
                organizacion_nombre := Texto (u "Acme");
                periodo_informe := Escalar (u "2024");
                url_archivo_supabase := Texto (u "https://x/acme.csv") |} ]
           (u "Acme - 2024 (ID: 12)") (u "12")).
  - intros row t [<-|[]]. discriminate.
  - vm_compute. reflexivity.
  - vm_compute. reflexivity.
Defined.
